(** * Bookstore sales ledger: a shallow embedding of [bookstore_manager.py]

    The program is an interactive console script over three SQLite tables
    ([member], [book], [sale]).  The embedding keeps the shape of the script:

    - a Python [str] is a [string]; one character stands for one code point
      (code points below 256);
    - a Python [int] and an SQLite INTEGER are a [Z]; the 64-bit range of an
      SQLite INTEGER is checked where the script binds a parameter;
    - a table with a primary key is a finite map from the key to the other
      columns of the row;
    - the console is a list of pending input lines and a log of printed
      lines; every function of the script is a computation over the console
      and the database file, which may end in an uncaught exception.

    The menu loop of [main] only dispatches to these functions and is not
    embedded. *)

From Stdlib Require Import ZArith String Ascii.
From stdpp Require Import base option list gmap strings sorting fin_maps.

Local Open Scope Z_scope.

(** ** Module constants *)

Definition DATE_FORMAT_LENGTH : nat := 10.

(** ** Python built-ins on strings *)

Module Py.

(** [str.isspace] on one character, for code points below 256. *)
Definition is_space (c : ascii) : bool :=
  let n := Z.of_N (N_of_ascii c) in
  ((9 <=? n) && (n <=? 13)) || ((28 <=? n) && (n <=? 32))
  || (n =? 133) || (n =? 160).

Fixpoint lstrip (s : string) : string :=
  match s with
  | EmptyString => EmptyString
  | String c s' => if is_space c then lstrip s' else s
  end.

Fixpoint rstrip (s : string) : string :=
  match s with
  | EmptyString => EmptyString
  | String c s' =>
      match rstrip s' with
      | EmptyString => if is_space c then EmptyString else String c EmptyString
      | r => String c r
      end
  end.

(** [s.strip()] *)
Definition strip (s : string) : string := rstrip (lstrip s).

(** [len(s)] *)
Definition len (s : string) : nat := String.length s.

(** [s.count(c)] for a pattern [c] of one character. *)
Fixpoint count (c : ascii) (s : string) : nat :=
  match s with
  | EmptyString => O
  | String c' s' => if Ascii.eqb c' c then S (count c s') else count c s'
  end.

(** The range of an SQLite INTEGER; the [sqlite3] module raises
    [OverflowError] when a bound Python [int] is outside it. *)
Definition fits_int64 (z : Z) : bool :=
  (- 2 ^ 63 <=? z) && (z <=? 2 ^ 63 - 1).

End Py.

(** ** The three tables *)

(** [member (mid TEXT PRIMARY KEY, mname, mphone, memail)] *)
Record member_row := MemberRow {
  mname : string;
  mphone : string;
  memail : option string
}.

(** [book (bid TEXT PRIMARY KEY, btitle, bprice, bstock)] *)
Record book_row := BookRow {
  btitle : string;
  bprice : Z;
  bstock : Z
}.

(** [sale (sid INTEGER PRIMARY KEY AUTOINCREMENT, sdate, mid, bid, sqty,
    sdiscount, stotal)].  The columns [mid] and [bid] are plain TEXT: the
    schema declares no REFERENCES clause. *)
Record sale_row := SaleRow {
  sdate : string;
  mid : string;
  bid : string;
  sqty : Z;
  sdiscount : Z;
  stotal : Z
}.

(** The database file.  [sale_seq] is the [sqlite_sequence] entry that
    AUTOINCREMENT keeps for [sale]: the largest [sid] ever used. *)
Record store := Store {
  member : gmap string member_row;
  book : gmap string book_row;
  sale : gmap Z sale_row;
  sale_seq : Z
}.

Global Instance member_row_eq_dec : EqDecision member_row.
Proof. solve_decision. Defined.
Global Instance book_row_eq_dec : EqDecision book_row.
Proof. solve_decision. Defined.
Global Instance sale_row_eq_dec : EqDecision sale_row.
Proof. solve_decision. Defined.

Definition empty_db : store := Store ∅ ∅ ∅ 0.

(** A row of [list_sales]: [s.sid, m.mname, s.sdate]. *)
Record listing := Listing {
  l_sid : Z;
  l_mname : string;
  l_sdate : string
}.

(** A row of the report: [s.sid, s.sdate, m.mname, b.btitle, b.bprice,
    s.sqty, s.sdiscount, s.stotal]. *)
Record line_item := LineItem {
  r_sid : Z;
  r_sdate : string;
  r_mname : string;
  r_btitle : string;
  r_bprice : Z;
  r_sqty : Z;
  r_sdiscount : Z;
  r_stotal : Z
}.

(** ** SQL statements of the script *)

Module Sql.

Definition MAX_ROWID : Z := 2 ^ 63 - 1.

(** Largest key of the [sale] table, if any. *)
Definition max_key (ks : list Z) : option Z :=
  foldr (λ k acc, Some (from_option (Z.max k) k acc)) None ks.

Definition max_sid (t : gmap Z sale_row) : option Z :=
  max_key (map_to_list t).*1.

(** The rowid SQLite picks for an INSERT without [sid] into an
    AUTOINCREMENT table: one more than the largest rowid of the table and
    than the recorded sequence value; the INSERT fails with SQLITE_FULL
    (an [sqlite3.Error]) once the largest rowid has been used. *)
Definition new_rowid (s : store) : option Z :=
  let top := max_sid (sale s) in
  if bool_decide (top = Some MAX_ROWID) || (sale_seq s =? MAX_ROWID) then None
  else Some (Z.max (from_option (λ k, k + 1) 1 top) (sale_seq s + 1)).

(** [INSERT INTO sale (sdate, mid, bid, sqty, sdiscount, stotal)
    VALUES (?, ?, ?, ?, ?, ?)] *)
Definition insert_sale (r : sale_row) (s : store) : option (Z * store) :=
  sid ← new_rowid s;
  Some (sid, Store (member s) (book s) (<[sid := r]> (sale s)) sid).

(** [UPDATE book SET bstock = bstock - ? WHERE bid = ?] *)
Definition update_book_stock (qty : Z) (b : string) (s : store) : store :=
  Store (member s)
        (alter (λ r, BookRow (btitle r) (bprice r) (bstock r - qty)) b (book s))
        (sale s) (sale_seq s).

(** [UPDATE sale SET sdiscount = ?, stotal = ? WHERE sid = ?] *)
Definition update_sale_discount (d t sid : Z) (s : store) : store :=
  Store (member s) (book s)
        (alter (λ r, SaleRow (sdate r) (mid r) (bid r) (sqty r) d t) sid (sale s))
        (sale_seq s).

(** [DELETE FROM sale WHERE sid = ?] *)
Definition delete_sale_row (sid : Z) (s : store) : store :=
  Store (member s) (book s) (delete sid (sale s)) (sale_seq s).

(** [ORDER BY key] *)
Definition key_le {A} (key : A → Z) : relation A := λ a b, key a ≤ key b.

Global Instance key_le_dec {A} (key : A → Z) a b : Decision (key_le key a b).
Proof. unfold key_le. apply _. Defined.

Definition order_by {A} (key : A → Z) (rows : list A) : list A :=
  merge_sort (key_le key) rows.

(** [SELECT s.sid, m.mname, s.sdate FROM sale s
     JOIN member m ON s.mid = m.mid ORDER BY s.sid] *)
Definition select_sales (s : store) : list listing :=
  order_by l_sid
    (omap (λ kv, m ← member s !! mid kv.2;
                 Some (Listing kv.1 (mname m) (sdate kv.2)))
          (map_to_list (sale s))).

(** [SELECT s.sid, s.sdate, m.mname, b.btitle, b.bprice, s.sqty,
     s.sdiscount, s.stotal FROM sale s JOIN member m ON s.mid = m.mid
     JOIN book b ON s.bid = b.bid ORDER BY s.sid] *)
Definition select_report (s : store) : list line_item :=
  order_by r_sid
    (omap (λ kv, m ← member s !! mid kv.2;
                 b ← book s !! bid kv.2;
                 Some (LineItem kv.1 (sdate kv.2) (mname m) (btitle b)
                                (bprice b) (sqty kv.2) (sdiscount kv.2)
                                (stotal kv.2)))
          (map_to_list (sale s))).

(** [INSERT OR IGNORE INTO t VALUES ...]: a row whose key is already
    present is skipped. *)
Definition insert_or_ignore `{Countable K} {V}
    (rows : list (K * V)) (t : gmap K V) : gmap K V :=
  foldl (λ acc kv, match acc !! kv.1 with
                   | Some _ => acc
                   | None => <[kv.1 := kv.2]> acc
                   end) t rows.

(** The same with explicit [sid]s on the AUTOINCREMENT table: an inserted
    row raises the recorded sequence value to its [sid]. *)
Definition insert_or_ignore_sale
    (rows : list (Z * sale_row)) (t : gmap Z sale_row) (seq : Z)
    : gmap Z sale_row * Z :=
  foldl (λ acc kv, match acc.1 !! kv.1 with
                   | Some _ => acc
                   | None => (<[kv.1 := kv.2]> acc.1, Z.max acc.2 kv.1)
                   end) (t, seq) rows.

End Sql.

(** ** [initialize_database] *)

Definition seed_member : list (string * member_row) :=
  [ ("M001", MemberRow "Alice" "0912-345678" (Some "alice@example.com"));
    ("M002", MemberRow "Bob" "0923-456789" (Some "bob@example.com"));
    ("M003", MemberRow "Cathy" "0934-567890" (Some "cathy@example.com")) ]%string.

Definition seed_book : list (string * book_row) :=
  [ ("B001", BookRow "Python Programming" 600 50);
    ("B002", BookRow "Data Science Basics" 800 30);
    ("B003", BookRow "Machine Learning Guide" 1200 20) ]%string.

Definition seed_sale : list (Z * sale_row) :=
  [ (1, SaleRow "2024-01-15" "M001" "B001" 2 100 1100);
    (2, SaleRow "2024-01-16" "M002" "B002" 1 50 750);
    (3, SaleRow "2024-01-17" "M001" "B003" 3 200 3400);
    (4, SaleRow "2024-01-18" "M003" "B001" 1 0 600) ]%string.

(** The tables are created when missing and the seed rows are inserted with
    INSERT OR IGNORE. *)
Definition initialize_database (s : store) : store :=
  let '(t, seq) := Sql.insert_or_ignore_sale seed_sale (sale s) (sale_seq s) in
  Store (Sql.insert_or_ignore seed_member (member s))
        (Sql.insert_or_ignore seed_book (book s))
        t seq.

(** The database right after the first start of the program. *)
Definition initial_db : store := initialize_database empty_db.

(** ** The console and the computations of the script *)

(** Lines the script prints.  The eleven lines printed for one report row
    are one [ReportItem]; prompts of [input] are not logged. *)
Inductive message :=
  | NotPositive                      (* 數值必須為正整數 *)
  | Negative                         (* 數值不能為負數 *)
  | NotAnInteger                     (* 請輸入有效的整數 *)
  | DateFormatError                  (* 日期格式錯誤 *)
  | InvalidMemberOrBook              (* 會員編號或書籍編號無效 *)
  | InsufficientStock (current : Z)  (* 書籍庫存不足 (現有庫存: ...) *)
  | SaleAdded (total : Z)            (* 銷售記錄已新增 *)
  | AddFailed                        (* 新增失敗，資料庫操作異常 *)
  | ReportItem (i : nat) (sid : Z) (date name title : string)
               (price qty discount total : Z)
  | ListHeader
  | ListItem (i : nat) (sid : Z) (name date : string)
  | ListFooter
  | InvalidNumber                    (* 請輸入有效的數字 *)
  | SaleUpdated (sid total : Z)      (* 銷售編號 ... 已更新 *)
  | UpdateFailed
  | SaleDeleted (sid : Z)            (* 銷售編號 ... 已刪除 *)
  | DeleteFailed.

(** Exceptions that no handler of the script catches. *)
Inductive exn :=
  | EOFError        (* [input] at the end of the input *)
  | OverflowError   (* a bound [int] outside the SQLite INTEGER range *)
  | TypeError       (* subscript of the [None] returned by [fetchone] *)
  | IndexError.     (* list index out of range *)

Inductive result (A : Type) :=
  | Ok (a : A)
  | Raise (e : exn).
Arguments Ok {A} a.
Arguments Raise {A} e.

(** [stdout] holds the printed lines, the latest first. *)
Record world := World {
  db : store;
  stdin : list string;
  stdout : list message
}.

Definition M (A : Type) : Type := world → result A * world.

Global Instance M_ret : MRet M := λ A a w, (Ok a, w).
Global Instance M_bind : MBind M := λ A B f m w,
  match m w with
  | (Ok a, w') => f a w'
  | (Raise e, w') => (Raise e, w')
  end.

Global Instance M_fmap : FMap M := λ A B f m w,
  match m w with
  | (Ok a, w') => (Ok (f a), w')
  | (Raise e, w') => (Raise e, w')
  end.

Definition raise {A} (e : exn) : M A := λ w, (Raise e, w).

(** [input(prompt)] *)
Definition input : M string := λ w,
  match stdin w with
  | [] => (Raise EOFError, w)
  | l :: ls => (Ok l, World (db w) ls (stdout w))
  end.

(** [print(...)] *)
Definition print (m : message) : M unit := λ w,
  (Ok tt, World (db w) (stdin w) (m :: stdout w)).

(** Reading the database file through a fresh connection. *)
Definition connect : M store := λ w, (Ok (db w), w).

(** [conn.commit()]: the statements executed on the connection reach the
    file.  Leaving the connection any other way ([conn.rollback()], an
    exception inside the [with] block) leaves the file as it was. *)
Definition commit (s : store) : M unit := λ w,
  (Ok tt, World s (stdin w) (stdout w)).

(** [enumerate(rows, start)] *)
Definition enumerate {A} (start : nat) (rows : list A) : list (nat * A) :=
  imap (λ i row, (start + i, row)%nat) rows.

(** The block printed for the [i]-th row of the report. *)
Definition report_item (i : nat) (row : line_item) : message :=
  ReportItem i (r_sid row) (r_sdate row) (r_mname row) (r_btitle row)
    (r_bprice row) (r_sqty row) (r_sdiscount row) (r_stotal row).

(** The line printed for the [i]-th row of the sale listing. *)
Definition list_item (i : nat) (row : listing) : message :=
  ListItem i (l_sid row) (l_mname row) (l_sdate row).

(** The sale number shown by a printed report block. *)
Definition report_sid (m : message) : option Z :=
  match m with
  | ReportItem _ sid _ _ _ _ _ _ _ => Some sid
  | _ => None
  end.

(** Every book has a stock that is not negative. *)
Definition stock_nonneg (s : store) : Prop :=
  map_Forall (λ _ b, 0 ≤ bstock b) (book s).

Global Instance stock_nonneg_dec s : Decision (stock_nonneg s).
Proof. unfold stock_nonneg. apply _. Defined.

(** A reader of decimal numerals with an optional sign, used to run the
    script on concrete input. *)
Module Decimal.

Definition digit (c : ascii) : option Z :=
  let n := Z.of_N (N_of_ascii c) in
  if (48 <=? n) && (n <=? 57) then Some (n - 48) else None.

Fixpoint digits (acc : Z) (s : string) : option Z :=
  match s with
  | EmptyString => Some acc
  | String c s' => d ← digit c; digits (10 * acc + d) s'
  end.

Definition unsigned (s : string) : option Z :=
  match s with
  | EmptyString => None
  | _ => digits 0 s
  end.

Definition read (s : string) : option Z :=
  match Py.strip s with
  | String "-" s' => Z.opp <$> unsigned s'
  | String "+" s' => unsigned s'
  | s' => unsigned s'
  end.

End Decimal.

Section Script.

(** Python's built-in [int] on a [str]; [None] stands for [ValueError]. *)
Variable py_int : string → option Z.

(** [input_int]: the [while True] loop reads one line per turn. *)
Fixpoint input_int_loop (positive_only allow_zero : bool)
    (lines : list string) (out : list message)
    : result Z * list string * list message :=
  match lines with
  | [] => (Raise EOFError, [], out)
  | l :: rest =>
      match py_int l with
      | Some value =>
          if positive_only && (value <=? 0)
          then input_int_loop positive_only allow_zero rest (NotPositive :: out)
          else if negb allow_zero && (value <? 0)
          then input_int_loop positive_only allow_zero rest (Negative :: out)
          else (Ok value, rest, out)
      | None =>
          input_int_loop positive_only allow_zero rest (NotAnInteger :: out)
      end
  end.

Definition input_int (positive_only allow_zero : bool) : M Z := λ w,
  let '(r, lines, out) :=
    input_int_loop positive_only allow_zero (stdin w) (stdout w) in
  (r, World (db w) lines out).

(** [add_sale].  The INSERT raises an [sqlite3.Error] when no rowid is left
    (the [AddFailed] line, after [conn.rollback()]); binding an [int]
    outside the SQLite INTEGER range raises [OverflowError], which the
    [except sqlite3.Error] clause does not catch. *)
Definition add_sale : M unit :=
  sdate ← Py.strip <$> input;
  if negb (Py.len sdate =? DATE_FORMAT_LENGTH)%nat
     || negb (Py.count "-" sdate =? 2)%nat
  then print DateFormatError
  else
    mid ← Py.strip <$> input;
    bid ← Py.strip <$> input;
    conn ← connect;
    match member conn !! mid, book conn !! bid with
    | Some _, Some book =>
        sqty ← input_int true false;
        if bstock book <? sqty
        then print (InsufficientStock (bstock book))
        else
          sdiscount ← input_int false true;
          let stotal := bprice book * sqty - sdiscount in
          if forallb Py.fits_int64 [sqty; sdiscount; stotal]
          then
            match Sql.insert_sale
                    (SaleRow sdate mid bid sqty sdiscount stotal) conn with
            | Some (_, conn) =>
                commit (Sql.update_book_stock sqty bid conn);;
                print (SaleAdded stotal)
            | None => print AddFailed
            end
          else raise OverflowError
    | _, _ => print InvalidMemberOrBook
    end.

(** [show_report] *)
Definition show_report : M unit :=
  conn ← connect;
  let rows := Sql.select_report conn in
  mapM (λ ir, print (uncurry report_item ir)) (enumerate 1 rows);;
  mret tt.

(** [list_sales] *)
Definition list_sales : M (list listing) :=
  conn ← connect;
  mret (Sql.select_sales conn).

(** The listing that [update_sale] and [delete_sale] print first. *)
Definition print_sales (sales : list listing) : M unit :=
  print ListHeader;;
  mapM (λ ir, print (uncurry list_item ir)) (enumerate 1 sales);;
  print ListFooter.

(** [update_sale].  The UPDATE touches no key and no constrained column, so
    it raises no [sqlite3.Error] here and the [except] branch (the
    [UpdateFailed] line) is not taken. *)
Definition update_sale : M unit :=
  sales ← list_sales;
  print_sales sales;;
  choice ← input;
  if bool_decide (choice = EmptyString) then mret tt
  else
    match py_int choice with
    | None => print InvalidNumber
    | Some n =>
        let index := n - 1 in
        if (index <? 0) || (Z.of_nat (length sales) <=? index)
        then print InvalidNumber
        else
          match sales !! Z.to_nat index with
          | None => raise IndexError
          | Some entry =>
              let sid := l_sid entry in
              new_discount ← input_int false true;
              conn ← connect;
              match sale conn !! sid with
              | None => raise TypeError
              | Some sale =>
                  match book conn !! bid sale with
                  | None => raise TypeError
                  | Some book =>
                      let price := bprice book in
                      let new_total := price * sqty sale - new_discount in
                      if forallb Py.fits_int64 [new_discount; new_total]
                      then
                        commit (Sql.update_sale_discount
                                  new_discount new_total sid conn);;
                        print (SaleUpdated sid new_total)
                      else raise OverflowError
                  end
              end
          end
    end.

(** [delete_sale].  As for the UPDATE above, the DELETE raises no
    [sqlite3.Error] here, so the [DeleteFailed] line is not printed. *)
Definition delete_sale : M unit :=
  sales ← list_sales;
  print_sales sales;;
  choice ← input;
  if bool_decide (choice = EmptyString) then mret tt
  else
    match py_int choice with
    | None => print InvalidNumber
    | Some n =>
        let index := n - 1 in
        if (index <? 0) || (Z.of_nat (length sales) <=? index)
        then print InvalidNumber
        else
          match sales !! Z.to_nat index with
          | None => raise IndexError
          | Some entry =>
              let sid := l_sid entry in
              conn ← connect;
              commit (Sql.delete_sale_row sid conn);;
              print (SaleDeleted sid)
          end
    end.

End Script.

(** ** Sample sessions *)

Module Sample.

(** A sale of two copies of B001 to M001 with a discount of 100. *)
Definition sale_lines : list string :=
  ["2024-05-01"; "M001"; "B001"; "2"; "100"]%string.

Definition after_sale : store :=
  Store (member initial_db)
        (<["B001"%string := BookRow "Python Programming" 600 48]>
           (book initial_db))
        (<[5 := SaleRow "2024-05-01" "M001" "B001" 2 100 1100]>
           (sale initial_db))
        5.

(** A sale of twenty copies of B001 to M002 without discount. *)
Definition bulk_lines : list string :=
  ["2024-05-02"; "M002"; "B001"; "20"; "0"]%string.

Definition after_bulk : store :=
  Store (member initial_db)
        (<["B001"%string := BookRow "Python Programming" 600 30]>
           (book initial_db))
        (<[5 := SaleRow "2024-05-02" "M002" "B001" 20 0 12000]>
           (sale initial_db))
        5.

(** The third listed sale gets the discount 200. *)
Definition update_lines : list string := ["3"; "200"]%string.

(** The second listed sale (one copy at 800, discount 50, total 750) gets
    the discount 100. *)
Definition discount_lines : list string := ["2"; "100"]%string.

Definition after_discount : store :=
  Store (member initial_db) (book initial_db)
        (<[2 := SaleRow "2024-01-16" "M002" "B002" 1 100 700]>
           (sale initial_db))
        4.

(** The third listed sale is deleted. *)
Definition delete_lines : list string := ["3"]%string.

Definition after_delete : store :=
  Store (member initial_db) (book initial_db) (delete 3 (sale initial_db)) 4.

(** The listing printed before the choice is read, the latest line
    first. *)
Definition listing_printed : list message :=
  [ ListFooter;
    ListItem 4 4 "Cathy" "2024-01-18";
    ListItem 3 3 "Alice" "2024-01-17";
    ListItem 2 2 "Bob" "2024-01-16";
    ListItem 1 1 "Alice" "2024-01-15";
    ListHeader ]%string.

(** A database file in which sale 9 names a member that does not exist. *)
Definition orphan_row : sale_row :=
  SaleRow "2024-06-01" "M999" "B001" 1 0 600.

Definition orphan_db : store :=
  Store (member initial_db) (book initial_db)
        (<[9 := orphan_row]> (sale initial_db)) 9.

End Sample.

(** ** The menu loop *)

(** Lines on the screen during a run of [main]. *)
Inductive menu_line :=
  | MenuBanner                  (* the menu, before every choice *)
  | Printed (m : message)       (* a line of the function that was chosen *)
  | Leaving                     (* 離開程式 *)
  | InvalidOption.              (* 請輸入有效的選項（1-5） *)

(** [main] never returns: it ends by [sys.exit()] or by an exception that
    nothing catches. *)
Inductive ending :=
  | SystemExit
  | Uncaught (e : exn).

(** The database file, the pending input and the screen, the latest line
    first. *)
Record session := Session {
  disk : store;
  pending : list string;
  screen : list menu_line
}.

Section Main.

Variable py_int : string → option Z.

(** A call of one of the functions of the script from the loop. *)
Definition call (f : M unit) (ss : session) : result unit * session :=
  let '(r, w) := f (World (disk ss) (pending ss) []) in
  (r, Session (db w) (stdin w) ((Printed <$> stdout w) ++ screen ss)).

(** The [while True] loop of [main]; [fuel] bounds the number of turns. *)
Fixpoint main_loop (fuel : nat) (ss : session) : option (ending * session) :=
  match fuel with
  | O => None
  | S fuel =>
      let shown := MenuBanner :: screen ss in
      match pending ss with
      | [] => Some (Uncaught EOFError, Session (disk ss) [] shown)
      | l :: rest =>
          let choice := Py.strip l in
          let ss := Session (disk ss) rest shown in
          let run f :=
            match call f ss with
            | (Ok _, ss') => main_loop fuel ss'
            | (Raise e, ss') => Some (Uncaught e, ss')
            end in
          if bool_decide (choice = EmptyString) then main_loop fuel ss
          else if bool_decide (choice = "1"%string) then run (add_sale py_int)
          else if bool_decide (choice = "2"%string) then run show_report
          else if bool_decide (choice = "3"%string) then run (update_sale py_int)
          else if bool_decide (choice = "4"%string) then run (delete_sale py_int)
          else if bool_decide (choice = "5"%string)
          then Some (SystemExit, Session (disk ss) rest (Leaving :: shown))
          else main_loop fuel (Session (disk ss) rest (InvalidOption :: shown))
      end
  end.

(** [main]: every turn of the loop that does not end the program reads at
    least one line, so one turn per line and one more are enough. *)
Definition main (file : store) (lines : list string)
    : option (ending * session) :=
  main_loop (S (length lines)) (Session (initialize_database file) lines []).

(** One step of the life of the database file: a call of one of the
    functions, however it ends, or a new start of the program. *)
Inductive step (s : store) : store → Prop :=
  | step_add_sale w r w' :
      db w = s → add_sale py_int w = (r, w') → step s (db w')
  | step_show_report w r w' :
      db w = s → show_report w = (r, w') → step s (db w')
  | step_update_sale w r w' :
      db w = s → update_sale py_int w = (r, w') → step s (db w')
  | step_delete_sale w r w' :
      db w = s → delete_sale py_int w = (r, w') → step s (db w')
  | step_start : step s (initialize_database s).

(** The files the program can produce from an empty file. *)
Definition reachable (s : store) : Prop := rtc step empty_db s.

End Main.

(** The listing that [update_sale] and [delete_sale] show before they read
    the choice, the latest line first. *)
Definition sale_listing (sales : list listing) : list message :=
  ListFooter :: rev (uncurry list_item <$> enumerate 1 sales) ++ [ListHeader].

(** A line that the menu takes for none of its five choices. *)
Definition idle (l : string) : Prop :=
  Py.strip l ∉ ["1"; "2"; "3"; "4"; "5"]%string.

(** ** What the ledger keeps *)

(** The two tests of [input_int] on a value. *)
Definition int_accepted (positive_only allow_zero : bool) (value : Z) : bool :=
  negb (positive_only && (value <=? 0)) && negb (negb allow_zero && (value <? 0)).

(** A line for which [input_int] asks again: no integer, or an integer that
    fails one of the two tests. *)
Definition refused (py_int : string → option Z) (positive_only allow_zero : bool)
    (l : string) : Prop :=
  from_option (int_accepted positive_only allow_zero) false (py_int l) = false.

(** Every [sid] of the table is at most the recorded sequence value. *)
Definition seq_covers (s : store) : Prop :=
  map_Forall (λ k _, k ≤ sale_seq s) (sale s).

(** Every sale names a member and a book that exist. *)
Definition refs_ok (s : store) : Prop :=
  map_Forall (λ _ r, is_Some (member s !! mid r) ∧ is_Some (book s !! bid r))
             (sale s).

(** Every sale has a positive quantity. *)
Definition qty_pos (s : store) : Prop :=
  map_Forall (λ _ r, 0 < sqty r) (sale s).

(** Every stored total is the price of the book now, multiplied by the
    quantity, minus the discount. *)
Definition totals_ok (s : store) : Prop :=
  map_Forall (λ _ r, ∀ b, book s !! bid r = Some b →
                          stotal r = bprice b * sqty r - sdiscount r)
             (sale s).

(** A seed book that is in the table has its seed price. *)
Definition seed_prices (s : store) : Prop :=
  ∀ k r b, (k, r) ∈ seed_book → book s !! k = Some b → bprice b = bprice r.

Record ledger_ok (s : store) : Prop := LedgerOk {
  ok_stock : stock_nonneg s;
  ok_seq : seq_covers s;
  ok_refs : refs_ok s;
  ok_qty : qty_pos s;
  ok_totals : totals_ok s;
  ok_prices : seed_prices s
}.

(** What the menu loop relies on in a function it calls: the call is a step
    of the file, it reads input only forwards, and on a consistent file it
    raises nothing but [EOFError] and [OverflowError]. *)
Definition callee (py_int : string → option Z) (f : M unit) : Prop :=
  ∀ w r w', f w = (r, w') →
    step py_int (db w) (db w')
    ∧ (length (stdin w') ≤ length (stdin w))%nat
    ∧ (ledger_ok (db w) →
       ∀ e, r = Raise e → e = EOFError ∨ e = OverflowError).

(** A book row keeps its title and its price, and its stock does not
    rise. *)
Definition book_kept (b b' : book_row) : Prop :=
  btitle b' = btitle b ∧ bprice b' = bprice b ∧ bstock b' ≤ bstock b.

(** From [s] to [s'] no member row and no book row is lost, member rows are
    the same, book rows are kept in the sense above, and the sequence value
    does not go down. *)
Definition kept (s s' : store) : Prop :=
  member s ⊆ member s'
  ∧ (∀ k b, book s !! k = Some b → ∃ b', book s' !! k = Some b' ∧ book_kept b b')
  ∧ sale_seq s ≤ sale_seq s'.

(** ** More sample sessions *)

Module Tour.

(** A database file in which sale 9 names the book B999, which does not
    exist, for a member that does. *)
Definition lost_book_db : store :=
  Store (member initial_db) (book initial_db)
        (<[9 := SaleRow "2024-06-01" "M001" "B999" 1 0 600]> (sale initial_db))
        9.

(** Four copies of B003 for M002 with the discount -50. *)
Definition gift_lines : list string :=
  ["2024-05-01"; "M002"; "B003"; "4"; "-50"]%string.

Definition after_gift : store :=
  Store (member initial_db)
        (<["B003"%string := BookRow "Machine Learning Guide" 1200 16]>
           (book initial_db))
        (<[5 := SaleRow "2024-05-01" "M002" "B003" 4 (-50) 4850]>
           (sale initial_db))
        5.



(** The sample sale, then the fifth sale of the listing is deleted. *)
Definition undo_lines : list string := Sample.sale_lines ++ ["5"%string].

Definition after_undo : store :=
  Store (member initial_db) (book Sample.after_sale) (sale initial_db) 5.

End Tour.

(** * Properties *)

(** ** The SQL statements *)

Section SqlFacts.

Implicit Types (s : store) (t : gmap Z sale_row).

Lemma max_key_upper (ks : list Z) k :
  k ∈ ks → ∃ m, Sql.max_key ks = Some m ∧ k ≤ m.
Proof.
  induction ks as [|k' ks IH]; [by intros ?%elem_of_nil|].
  intros [->|Hin]%elem_of_cons; simpl.
  - destruct (Sql.max_key ks); eexists; split; [done| |done|]; simpl; lia.
  - destruct (IH Hin) as (m & -> & ?). eexists; split; [done|]. simpl; lia.
Qed.

Lemma max_sid_upper t k :
  is_Some (t !! k) → ∃ m, Sql.max_sid t = Some m ∧ k ≤ m.
Proof.
  intros [r Hr]. apply max_key_upper, list_elem_of_fmap.
  exists (k, r). split; [done|]. by apply elem_of_map_to_list.
Qed.

(** The rowid of an INSERT is above every [sid] of the table and above
    every [sid] used before. *)
Lemma new_rowid_fresh s sid :
  Sql.new_rowid s = Some sid →
  sale s !! sid = None
  ∧ (∀ k, is_Some (sale s !! k) → k < sid)
  ∧ sale_seq s < sid.
Proof.
  unfold Sql.new_rowid. case_match; [done|]. intros [= <-].
  assert (∀ k, is_Some (sale s !! k) →
            k < Z.max (from_option (λ k, k + 1) 1 (Sql.max_sid (sale s)))
                      (sale_seq s + 1)) as Hup.
  { intros k (m & -> & ?)%max_sid_upper. simpl. lia. }
  split_and!; [|done|lia].
  apply eq_None_not_Some. intros ?%Hup. lia.
Qed.

Global Instance key_le_trans {A} (key : A → Z) : Transitive (Sql.key_le key).
Proof. unfold Sql.key_le. intros x y z. lia. Qed.

Global Instance key_le_total {A} (key : A → Z) : Total (Sql.key_le key).
Proof. unfold Sql.key_le. intros x y. lia. Qed.

Lemma order_by_perm {A} (key : A → Z) (rows : list A) :
  Sql.order_by key rows ≡ₚ rows.
Proof. apply merge_sort_Permutation. Qed.

Lemma order_by_sorted {A} (key : A → Z) (rows : list A) :
  StronglySorted Z.le (key <$> Sql.order_by key rows).
Proof.
  apply StronglySorted_fmap with (R1 := Sql.key_le key); [done|].
  apply (StronglySorted_merge_sort _).
Qed.

Lemma elem_of_select_sales s x :
  x ∈ Sql.select_sales s ↔
  ∃ r m, sale s !! l_sid x = Some r ∧ member s !! mid r = Some m
         ∧ x = Listing (l_sid x) (mname m) (sdate r).
Proof.
  unfold Sql.select_sales. rewrite order_by_perm, list_elem_of_omap. split.
  - intros ([k r] & Hkr%elem_of_map_to_list & Hx). simpl in Hx.
    destruct (member s !! mid r) as [m|] eqn:Hm; [|done].
    injection Hx as <-. by exists r, m.
  - intros (r & m & Hr & Hm & ->). exists (l_sid x, r). simpl.
    split; [by apply elem_of_map_to_list|]. by rewrite Hm.
Qed.

Lemma elem_of_select_report s x :
  x ∈ Sql.select_report s ↔
  ∃ r m b, sale s !! r_sid x = Some r ∧ member s !! mid r = Some m
           ∧ book s !! bid r = Some b
           ∧ x = LineItem (r_sid x) (sdate r) (mname m) (btitle b) (bprice b)
                          (sqty r) (sdiscount r) (stotal r).
Proof.
  unfold Sql.select_report. rewrite order_by_perm, list_elem_of_omap. split.
  - intros ([k r] & Hkr%elem_of_map_to_list & Hx). simpl in Hx.
    destruct (member s !! mid r) as [m|] eqn:Hm; [|done].
    destruct (book s !! bid r) as [b|] eqn:Hb; [|done].
    injection Hx as <-. by exists r, m, b.
  - intros (r & m & b & Hr & Hm & Hb & ->). exists (r_sid x, r). simpl.
    split; [by apply elem_of_map_to_list|]. by rewrite Hm, Hb.
Qed.

End SqlFacts.

(** ** The console *)

Section Console.

Variable py_int : string → option Z.

Implicit Types (w : world) (s : store) (out : list message).

(** A value returned by [input_int] passed the two tests of the loop. *)
Lemma input_int_loop_accepts po az lines out v rest out' :
  input_int_loop py_int po az lines out = (Ok v, rest, out') →
  (po = true → 0 < v) ∧ (az = false → 0 ≤ v).
Proof.
  revert out. induction lines as [|l lines IH]; intros out; simpl; [done|].
  destruct (py_int l) as [value|]; [|by apply IH].
  destruct (po && (value <=? 0)) eqn:Hpo; [by apply IH|].
  destruct (negb az && (value <? 0)) eqn:Haz; [by apply IH|].
  intros [= <- <- <-]. split; intros ->; simpl in *; lia.
Qed.

Lemma bind_run {A B} (m : M A) (f : A → M B) w :
  (m ≫= f) w = match m w with
               | (Ok a, w') => f a w'
               | (Raise e, w') => (Raise e, w')
               end.
Proof. done. Qed.

(** Printing a list of lines only extends the log. *)
Lemma mapM_print {A} (f : A → message) (l : list A) w :
  ∃ us, mapM (λ x, print (f x)) l w
        = (Ok us, World (db w) (stdin w) (rev (f <$> l) ++ stdout w)).
Proof.
  revert w. induction l as [|x l IH]; intros [s ins out]; simpl.
  - by eexists.
  - rewrite bind_run. unfold print at 1. cbn [db stdin stdout].
    rewrite bind_run.
    destruct (IH (World s ins (f x :: out))) as [us ->]. cbn.
    eexists. unfold mret, M_ret. by rewrite <- app_assoc.
Qed.

Lemma show_report_run w :
  show_report w
  = (Ok tt,
     World (db w) (stdin w)
       (rev (uncurry report_item <$> enumerate 1 (Sql.select_report (db w)))
        ++ stdout w)).
Proof.
  destruct w as [s ins out]. unfold show_report.
  rewrite bind_run. unfold connect at 1. cbn [db]. rewrite bind_run.
  destruct (mapM_print (uncurry report_item)
              (enumerate 1 (Sql.select_report s)) (World s ins out))
    as [us Hus].
  cbn in Hus. by rewrite Hus.
Qed.

Lemma print_sales_run sales w :
  print_sales sales w
  = (Ok tt,
     World (db w) (stdin w)
       (ListFooter :: rev (uncurry list_item <$> enumerate 1 sales)
        ++ ListHeader :: stdout w)).
Proof.
  destruct w as [s ins out]. unfold print_sales.
  rewrite bind_run. unfold print at 1. cbn [db stdin stdout].
  rewrite bind_run.
  destruct (mapM_print (uncurry list_item) (enumerate 1 sales)
              (World s ins (ListHeader :: out))) as [us Hus].
  cbn in Hus. by rewrite Hus.
Qed.

Lemma print_sales_listing sales w :
  print_sales sales w
  = (Ok tt, World (db w) (stdin w) (sale_listing sales ++ stdout w)).
Proof.
  rewrite print_sales_run. unfold sale_listing. cbn.
  by rewrite <- app_assoc.
Qed.

Lemma list_sales_run w : list_sales w = (Ok (Sql.select_sales (db w)), w).
Proof. done. Qed.

Ltac unfold_run H :=
  unfold mbind, M_bind, fmap, M_fmap, mret, M_ret, input, print, connect,
    commit, raise, input_int in H; cbn in H.

Ltac no_change H :=
  injection H as <- <-; left; split; [done|]; intros _; repeat intro;
  simplify_eq/=.

(** Every run of [add_sale] either leaves the database file as it was and
    does not end on the success line, or went through all the checks and
    committed the INSERT and the UPDATE. *)
Lemma add_sale_cases w r w' :
  add_sale py_int w = (r, w') →
  (db w' = db w
   ∧ (r = Ok tt → ∀ t, head (stdout w') ≠ Some (SaleAdded t)))
  ∨ ∃ l1 l2 l3 rest m b q d sid,
      r = Ok tt
      ∧ stdin w = l1 :: l2 :: l3 :: rest
      ∧ Py.len (Py.strip l1) = DATE_FORMAT_LENGTH
      ∧ Py.count "-" (Py.strip l1) = 2%nat
      ∧ member (db w) !! Py.strip l2 = Some m
      ∧ book (db w) !! Py.strip l3 = Some b
      ∧ 0 < q ≤ bstock b
      ∧ Sql.new_rowid (db w) = Some sid
      ∧ head (stdout w') = Some (SaleAdded (bprice b * q - d))
      ∧ db w' =
          Sql.update_book_stock q (Py.strip l3)
            (Store (member (db w)) (book (db w))
               (<[sid := SaleRow (Py.strip l1) (Py.strip l2) (Py.strip l3)
                           q d (bprice b * q - d)]> (sale (db w)))
               sid).
Proof.
  destruct w as [s [|l1 ins] out]; unfold add_sale; intros Hrun;
    unfold_run Hrun; [by left; injection Hrun as <- <-|].
  destruct (negb _ || negb _) eqn:Hdate; [no_change Hrun|].
  destruct ins as [|l2 [|l3 rest]]; cbn in Hrun;
    [by left; injection Hrun as <- <-..|].
  destruct (member s !! Py.strip l2) as [m|] eqn:Hm;
    [destruct (book s !! Py.strip l3) as [b|] eqn:Hb|];
    [|no_change Hrun..].
  cbn in Hrun.
  destruct (input_int_loop py_int true false rest out)
    as [[[q|e] rest1] out1] eqn:Hq; cbn in Hrun;
    [|by left; injection Hrun as <- <-].
  destruct (bstock b <? q) eqn:Hstock; cbn in Hrun; [no_change Hrun|].
  destruct (input_int_loop py_int false true rest1 out1)
    as [[[d|e] rest2] out2] eqn:Hd; cbn in Hrun;
    [|by left; injection Hrun as <- <-].
  destruct (Py.fits_int64 q && _) eqn:Hfits; cbn in Hrun;
    [|by left; injection Hrun as <- <-].
  unfold Sql.insert_sale in Hrun.
  destruct (Sql.new_rowid s) as [sid|] eqn:Hsid; cbn in Hrun;
    [|no_change Hrun].
  injection Hrun as <- <-. right.
  apply input_int_loop_accepts in Hq as [Hq _].
  exists l1, l2, l3, rest, m, b, q, d, sid. cbn.
  apply orb_false_elim in Hdate as [H1 H2].
  apply negb_false_iff, Nat.eqb_eq in H1, H2.
  split_and!; try done; [by apply Hq|lia].
Qed.

(** Every run of [update_sale] either leaves the database file as it was
    and does not end on the success line, or rewrote the discount and the
    total of one listed sale. *)
Lemma update_sale_cases w r w' :
  update_sale py_int w = (r, w') →
  (db w' = db w
   ∧ (r = Ok tt → ∀ sid t, head (stdout w') ≠ Some (SaleUpdated sid t)))
  ∨ ∃ x row b d,
      r = Ok tt
      ∧ x ∈ Sql.select_sales (db w)
      ∧ sale (db w) !! l_sid x = Some row
      ∧ book (db w) !! bid row = Some b
      ∧ head (stdout w')
        = Some (SaleUpdated (l_sid x) (bprice b * sqty row - d))
      ∧ db w' = Sql.update_sale_discount d (bprice b * sqty row - d)
                  (l_sid x) (db w).
Proof.
  destruct w as [s ins out]. unfold update_sale. intros Hrun.
  rewrite bind_run, list_sales_run in Hrun.
  rewrite bind_run, print_sales_run in Hrun. cbn [db stdin stdout] in Hrun.
  remember (Sql.select_sales s) as sales eqn:Hsales.
  remember (ListFooter :: _) as out0 eqn:Hout0.
  assert (∀ sid t, head out0 ≠ Some (SaleUpdated sid t)) as Hhd
    by by subst out0.
  clear Hout0.
  destruct ins as [|choice ins]; unfold_run Hrun;
    [by left; injection Hrun as <- <-|].
  case_bool_decide; cbn in Hrun. 1: { injection Hrun as <- <-. by left. }
  destruct (py_int choice) as [n|]; cbn in Hrun; [|no_change Hrun].
  destruct ((n - 1 <? 0) || _); cbn in Hrun; [no_change Hrun|].
  destruct (sales !! Z.to_nat (n - 1)) as [x|] eqn:Hx; cbn in Hrun;
    [|by left; injection Hrun as <- <-].
  apply list_elem_of_lookup_2 in Hx.
  destruct (input_int_loop py_int false true ins out0)
    as [[[d|e] rest] out1] eqn:Hd; cbn in Hrun;
    [|by left; injection Hrun as <- <-].
  destruct (sale s !! l_sid x) as [row|] eqn:Hrow; cbn in Hrun;
    [|by left; injection Hrun as <- <-].
  destruct (book s !! bid row) as [b|] eqn:Hb; cbn in Hrun;
    [|by left; injection Hrun as <- <-].
  destruct (Py.fits_int64 d && _); cbn in Hrun;
    [|by left; injection Hrun as <- <-].
  injection Hrun as <- <-. right. subst sales. by exists x, row, b, d.
Qed.

(** Every run of [delete_sale] either leaves the database file as it was
    and does not end on the success line, or deleted one listed sale. *)
Lemma delete_sale_cases w r w' :
  delete_sale py_int w = (r, w') →
  (db w' = db w
   ∧ (r = Ok tt → ∀ sid, head (stdout w') ≠ Some (SaleDeleted sid)))
  ∨ ∃ x,
      r = Ok tt
      ∧ x ∈ Sql.select_sales (db w)
      ∧ head (stdout w') = Some (SaleDeleted (l_sid x))
      ∧ db w' = Sql.delete_sale_row (l_sid x) (db w).
Proof.
  destruct w as [s ins out]. unfold delete_sale. intros Hrun.
  rewrite bind_run, list_sales_run in Hrun.
  rewrite bind_run, print_sales_run in Hrun. cbn [db stdin stdout] in Hrun.
  remember (Sql.select_sales s) as sales eqn:Hsales.
  remember (ListFooter :: _) as out0 eqn:Hout0.
  assert (∀ sid, head out0 ≠ Some (SaleDeleted sid)) as Hhd by by subst out0.
  clear Hout0.
  destruct ins as [|choice ins]; unfold_run Hrun;
    [by left; injection Hrun as <- <-|].
  case_bool_decide; cbn in Hrun.
  1: { injection Hrun as <- <-. by left. }
  destruct (py_int choice) as [n|]; cbn in Hrun; [|no_change Hrun].
  destruct ((n - 1 <? 0) || _); cbn in Hrun; [no_change Hrun|].
  destruct (sales !! Z.to_nat (n - 1)) as [x|] eqn:Hx; cbn in Hrun;
    [|by left; injection Hrun as <- <-].
  apply list_elem_of_lookup_2 in Hx.
  injection Hrun as <- <-. right. subst sales. by exists x.
Qed.

(** A run of [add_sale] that ends on the success line read the date, the
    member id and the book id from the first three lines, then the quantity
    and the discount through [input_int]; the row written and the new stock
    are made of exactly these values. *)
Lemma add_sale_reads w w' t :
  add_sale py_int w = (Ok tt, w') →
  head (stdout w') = Some (SaleAdded t) →
  ∃ l1 l2 l3 rest m b q rest1 out1 d rest2 out2 sid,
    stdin w = l1 :: l2 :: l3 :: rest
    ∧ Py.len (Py.strip l1) = DATE_FORMAT_LENGTH
    ∧ Py.count "-" (Py.strip l1) = 2%nat
    ∧ member (db w) !! Py.strip l2 = Some m
    ∧ book (db w) !! Py.strip l3 = Some b
    ∧ input_int_loop py_int true false rest (stdout w) = (Ok q, rest1, out1)
    ∧ 0 < q ≤ bstock b
    ∧ input_int_loop py_int false true rest1 out1 = (Ok d, rest2, out2)
    ∧ Sql.new_rowid (db w) = Some sid
    ∧ t = bprice b * q - d
    ∧ w' =
        World
          (Sql.update_book_stock q (Py.strip l3)
             (Store (member (db w)) (book (db w))
                (<[sid := SaleRow (Py.strip l1) (Py.strip l2) (Py.strip l3)
                            q d t]> (sale (db w)))
                sid))
          rest2 (SaleAdded t :: out2).
Proof.
  destruct w as [s [|l1 ins] out]; unfold add_sale; intros Hrun Hout;
    unfold_run Hrun; [discriminate Hrun|].
  destruct (negb _ || negb _) eqn:Hdate; [by simplify_eq/=|].
  destruct ins as [|l2 [|l3 rest]]; cbn in Hrun; [discriminate Hrun..|].
  destruct (member s !! Py.strip l2) as [m|] eqn:Hm;
    [destruct (book s !! Py.strip l3) as [b|] eqn:Hb|];
    [|by simplify_eq/=..].
  cbn in Hrun.
  destruct (input_int_loop py_int true false rest out)
    as [[[q|e] rest1] out1] eqn:Hq; cbn in Hrun; [|discriminate Hrun].
  destruct (bstock b <? q) eqn:Hstock; cbn in Hrun; [by simplify_eq/=|].
  destruct (input_int_loop py_int false true rest1 out1)
    as [[[d|e] rest2] out2] eqn:Hd; cbn in Hrun; [|discriminate Hrun].
  destruct (Py.fits_int64 q && _) eqn:Hfits; cbn in Hrun;
    [|discriminate Hrun].
  unfold Sql.insert_sale in Hrun.
  destruct (Sql.new_rowid s) as [sid|] eqn:Hsid; cbn in Hrun;
    [|by simplify_eq/=].
  injection Hrun as <-. cbn in Hout. injection Hout as <-.
  pose proof (input_int_loop_accepts _ _ _ _ _ _ _ Hq) as [Hpos _].
  exists l1, l2, l3, rest, m, b, q, rest1, out1, d, rest2, out2, sid. cbn.
  apply orb_false_elim in Hdate as [H1 H2].
  apply negb_false_iff, Nat.eqb_eq in H1, H2.
  split_and!; try done; [by apply Hpos|lia].
Qed.

(** A run of [update_sale] that ends on the success line read the choice
    from the first line and the new discount through [input_int]; the row
    of the chosen listing line is rewritten with that discount. *)
Lemma update_sale_reads w w' sid t :
  update_sale py_int w = (Ok tt, w') →
  head (stdout w') = Some (SaleUpdated sid t) →
  ∃ choice ins n x d rest out1 row b,
    stdin w = choice :: ins
    ∧ py_int choice = Some n
    ∧ 1 ≤ n
    ∧ Sql.select_sales (db w) !! Z.to_nat (n - 1) = Some x
    ∧ l_sid x = sid
    ∧ input_int_loop py_int false true ins
        (sale_listing (Sql.select_sales (db w)) ++ stdout w)
      = (Ok d, rest, out1)
    ∧ sale (db w) !! sid = Some row
    ∧ book (db w) !! bid row = Some b
    ∧ t = bprice b * sqty row - d
    ∧ w' = World (Sql.update_sale_discount d t sid (db w)) rest
             (SaleUpdated sid t :: out1).
Proof.
  destruct w as [s ins out]. unfold update_sale. intros Hrun Hout.
  rewrite bind_run, list_sales_run in Hrun.
  rewrite bind_run, print_sales_listing in Hrun.
  cbn [db stdin stdout] in Hrun |- *.
  remember (Sql.select_sales s) as sales eqn:Hsales.
  remember (sale_listing sales ++ out) as out0 eqn:Hout0.
  assert (head out0 = Some ListFooter) as Hhd by by subst out0.
  destruct ins as [|choice ins]; unfold_run Hrun; [discriminate Hrun|].
  case_bool_decide; cbn in Hrun.
  1: { injection Hrun as <-. cbn in Hout. congruence. }
  destruct (py_int choice) as [n|] eqn:Hn; cbn in Hrun; [|by simplify_eq/=].
  destruct (n - 1 <? 0) eqn:Hlow; cbn in Hrun; [by simplify_eq/=|].
  destruct (_ <=? n - 1); cbn in Hrun; [by simplify_eq/=|].
  destruct (sales !! Z.to_nat (n - 1)) as [x|] eqn:Hx; cbn in Hrun;
    [|discriminate Hrun].
  destruct (input_int_loop py_int false true ins out0)
    as [[[d|e] rest] out1] eqn:Hd; cbn in Hrun; [|discriminate Hrun].
  destruct (sale s !! l_sid x) as [row|] eqn:Hrow; cbn in Hrun;
    [|discriminate Hrun].
  destruct (book s !! bid row) as [b|] eqn:Hb; cbn in Hrun;
    [|discriminate Hrun].
  destruct (Py.fits_int64 d && _); cbn in Hrun; [|discriminate Hrun].
  injection Hrun as <-. cbn in Hout. injection Hout as <- <-.
  exists choice, ins, n, x, d, rest, out1, row, b.
  split_and!; try done. lia.
Qed.

End Console.

(** ** The sale operations *)

Section Ledger.

Variable py_int : string → option Z.

Implicit Types (w : world) (s : store) (out : list message).

Lemma alter_lookup_insert `{Countable K} {V} (f : V → V)
    (t : gmap K V) k v :
  t !! k = Some v → alter f k t = <[k := f v]> t.
Proof.
  intros Hk. apply map_eq; intros j.
  rewrite lookup_alter, lookup_insert. case_decide; [|done]. by rewrite Hk.
Qed.

(** C1.  Every successful [add_sale] created a sale row for the member and
    the book named on the second and third input lines, which both exist,
    with the quantity that [input_int] returned from the lines after them;
    that quantity is positive and at most the stock of the book.  The book
    row is afterwards the former one with its stock lowered by exactly that
    quantity, which leaves it not negative, and every other book row is as
    it was. *)
Theorem add_sale_stock_decrement w w' t :
  add_sale py_int w = (Ok tt, w') →
  head (stdout w') = Some (SaleAdded t) →
  ∃ sid row b rest1 out1,
    sale (db w) !! sid = None
    ∧ sale (db w') !! sid = Some row
    ∧ Py.strip <$> stdin w !! 1%nat = Some (mid row)
    ∧ Py.strip <$> stdin w !! 2%nat = Some (bid row)
    ∧ input_int_loop py_int true false (drop 3 (stdin w)) (stdout w)
      = (Ok (sqty row), rest1, out1)
    ∧ is_Some (member (db w) !! mid row)
    ∧ book (db w) !! bid row = Some b
    ∧ 0 < sqty row ≤ bstock b
    ∧ book (db w')
      = <[bid row := BookRow (btitle b) (bprice b) (bstock b - sqty row)]>
          (book (db w))
    ∧ bstock <$> book (db w') !! bid row = Some (bstock b - sqty row)
    ∧ 0 ≤ bstock b - sqty row
    ∧ ∀ k, k ≠ bid row → book (db w') !! k = book (db w) !! k.
Proof.
  intros Hrun Hout.
  destruct (add_sale_reads _ _ _ _ Hrun Hout)
    as (l1 & l2 & l3 & rest & m & b & q & rest1 & out1 & d & rest2 & out2
        & sid & Hin & _ & _ & Hm & Hb & Hq & Hle & _ & Hsid & _ & ->).
  apply new_rowid_fresh in Hsid as (Hfresh & _ & _).
  exists sid, (SaleRow (Py.strip l1) (Py.strip l2) (Py.strip l3) q d t), b,
    rest1, out1.
  rewrite Hin. cbn. rewrite lookup_insert_eq.
  split_and!; try done; try lia.
  - by rewrite (alter_lookup_insert _ _ _ _ Hb).
  - by rewrite lookup_alter_eq, Hb.
  - intros k Hk. by rewrite lookup_alter_ne.
Qed.

(** C3.  Every successful [add_sale] inserted one sale row under a [sid]
    that is above every [sid] of the table and every [sid] used before.
    The row holds the stripped first three input lines as date, member and
    book, the quantity and the discount that the two calls of [input_int]
    returned in this order, and as total the price the named book has at
    that time multiplied by that quantity, minus that discount; the same
    total is printed, and the lines left are those after the discount. *)
Theorem add_sale_total w w' t :
  add_sale py_int w = (Ok tt, w') →
  head (stdout w') = Some (SaleAdded t) →
  ∃ sid row b rest1 out1 rest2 out2,
    sale (db w) !! sid = None
    ∧ (∀ k, is_Some (sale (db w) !! k) → k < sid)
    ∧ sale_seq (db w) < sid
    ∧ sale (db w') = <[sid := row]> (sale (db w))
    ∧ sale_seq (db w') = sid
    ∧ Py.strip <$> stdin w !! 0%nat = Some (sdate row)
    ∧ Py.strip <$> stdin w !! 1%nat = Some (mid row)
    ∧ Py.strip <$> stdin w !! 2%nat = Some (bid row)
    ∧ input_int_loop py_int true false (drop 3 (stdin w)) (stdout w)
      = (Ok (sqty row), rest1, out1)
    ∧ input_int_loop py_int false true rest1 out1
      = (Ok (sdiscount row), rest2, out2)
    ∧ book (db w) !! bid row = Some b
    ∧ stotal row = bprice b * sqty row - sdiscount row
    ∧ t = stotal row
    ∧ stdin w' = rest2
    ∧ stdout w' = SaleAdded t :: out2.
Proof.
  intros Hrun Hout.
  destruct (add_sale_reads _ _ _ _ Hrun Hout)
    as (l1 & l2 & l3 & rest & m & b & q & rest1 & out1 & d & rest2 & out2
        & sid & Hin & _ & _ & Hm & Hb & Hq & Hle & Hd & Hsid & -> & ->).
  apply new_rowid_fresh in Hsid as (Hfresh & Hup & Hseq).
  exists sid, (SaleRow (Py.strip l1) (Py.strip l2) (Py.strip l3) q d
                 (bprice b * q - d)), b, rest1, out1, rest2, out2.
  rewrite Hin. cbn. by split_and!.
Qed.

Lemma date_check sdate :
  negb (Py.len sdate =? DATE_FORMAT_LENGTH)%nat
  || negb (Py.count "-" sdate =? 2)%nat = false
  ↔ Py.len sdate = DATE_FORMAT_LENGTH ∧ Py.count "-" sdate = 2%nat.
Proof.
  rewrite orb_false_iff, !negb_false_iff, !Nat.eqb_eq. done.
Qed.

Ltac unfold_run :=
  unfold mbind, M_bind, fmap, M_fmap, mret, M_ret, input, print, connect,
    commit, raise, input_int; cbn.

(** C2.  When the date has the right format and the member id or the book
    id is not in its table, [add_sale] stops on the invalid-id line; when
    both are found and the quantity read is above the stock of the book,
    it stops on the insufficient-stock line, which shows that stock.  In
    both cases the database file is the one before the call: no sale row,
    no change of stock.  More generally a run that does not end on the
    success line leaves the file as it was. *)
Theorem add_sale_rejection_atomic s l1 l2 l3 rest out :
  Py.len (Py.strip l1) = DATE_FORMAT_LENGTH →
  Py.count "-" (Py.strip l1) = 2%nat →
  let w := World s (l1 :: l2 :: l3 :: rest) out in
  (member s !! Py.strip l2 = None ∨ book s !! Py.strip l3 = None →
   add_sale py_int w = (Ok tt, World s rest (InvalidMemberOrBook :: out)))
  ∧ (∀ b q rest' out',
       is_Some (member s !! Py.strip l2) →
       book s !! Py.strip l3 = Some b →
       input_int_loop py_int true false rest out = (Ok q, rest', out') →
       bstock b < q →
       add_sale py_int w
       = (Ok tt, World s rest' (InsufficientStock (bstock b) :: out')))
  ∧ (∀ r w',
       add_sale py_int w = (r, w') →
       (∀ t, head (stdout w') ≠ Some (SaleAdded t)) →
       db w' = s).
Proof.
  intros Hlen Hcount w.
  assert (negb (Py.len (Py.strip l1) =? DATE_FORMAT_LENGTH)%nat
          || negb (Py.count "-" (Py.strip l1) =? 2)%nat = false) as Hdate
    by by apply date_check.
  split_and!.
  - intros Hnone. unfold add_sale, w. unfold_run. rewrite Hdate. cbn.
    destruct Hnone as [-> | ->]; [done|].
    by destruct (member s !! Py.strip l2).
  - intros b q rest' out' [m Hm] Hb Hq Hlt. unfold add_sale, w. unfold_run.
    rewrite Hdate. cbn. rewrite Hm, Hb. cbn. rewrite Hq. cbn.
    by apply Z.ltb_lt in Hlt as ->.
  - intros r w' Hrun Hno.
    destruct (add_sale_cases _ _ _ _ Hrun) as [[? _]|Hyes]; [done|].
    destruct Hyes as (? & ? & ? & ? & ? & b & q & d & ? & _ & _ & _ & _ & _
                      & _ & _ & _ & Hhd & _).
    by destruct (Hno (bprice b * q - d)).
Qed.

(** A date that passes the format test is never answered by the
    date-format line. *)
Lemma add_sale_date_passes s l rest out :
  Py.len (Py.strip l) = DATE_FORMAT_LENGTH →
  Py.count "-" (Py.strip l) = 2%nat →
  add_sale py_int (World s (l :: rest) out)
  ≠ (Ok tt, World s rest (DateFormatError :: out)).
Proof.
  intros Hlen Hcount Hrun. unfold add_sale in Hrun. revert Hrun. unfold_run.
  replace (negb _ || negb _) with false
    by (symmetry; by apply date_check).
  destruct rest as [|l2 [|l3 rest']]; cbn; [done..|].
  intros Hrun.
  repeat match type of Hrun with
         | context [match ?x with _ => _ end] =>
             destruct x eqn:?; cbn in Hrun
         end;
    simplify_eq.
Qed.

(** C6.  [add_sale] answers a date line by the date-format line, and then
    stops with the database file untouched, exactly when the stripped
    line does not have ten characters and two hyphens; nothing else about
    the date is tested, so 9999-99-99 passes. *)
Theorem add_sale_date_format s l rest out :
  (add_sale py_int (World s (l :: rest) out)
   = (Ok tt, World s rest (DateFormatError :: out))
   ↔ ¬ (Py.len (Py.strip l) = 10%nat ∧ Py.count "-" (Py.strip l) = 2%nat))
  ∧ add_sale py_int (World s ("9999-99-99"%string :: rest) out)
    ≠ (Ok tt, World s rest (DateFormatError :: out)).
Proof.
  split; [|by apply add_sale_date_passes].
  split.
  - intros Hrun [Hlen Hcount]. by eapply add_sale_date_passes.
  - intros Hbad. unfold add_sale. unfold_run.
    destruct (negb _ || negb _) eqn:Hdate; [done|].
    by apply date_check in Hdate.
Qed.

(** C4.  Every successful [update_sale] rewrote one existing sale row: the
    one shown on the line of the listing whose number is the integer read
    as choice.  Its discount is the value that [input_int] returned from
    the lines after the choice, and its total is the price the referenced
    book has at that time multiplied by the quantity stored in the row,
    minus that discount; the date, the member, the book and the quantity of
    the row stay, every other sale row stays, and the book table, the
    member table and the sequence value are untouched. *)
Theorem update_sale_recomputes_total w w' sid t :
  update_sale py_int w = (Ok tt, w') →
  head (stdout w') = Some (SaleUpdated sid t) →
  ∃ row b d choice ins n x rest out1,
    stdin w = choice :: ins
    ∧ py_int choice = Some n
    ∧ 1 ≤ n
    ∧ Sql.select_sales (db w) !! Z.to_nat (n - 1) = Some x
    ∧ l_sid x = sid
    ∧ input_int_loop py_int false true ins
        (sale_listing (Sql.select_sales (db w)) ++ stdout w)
      = (Ok d, rest, out1)
    ∧ sale (db w) !! sid = Some row
    ∧ book (db w) !! bid row = Some b
    ∧ t = bprice b * sqty row - d
    ∧ sale (db w')
      = <[sid := SaleRow (sdate row) (mid row) (bid row) (sqty row) d t]>
          (sale (db w))
    ∧ book (db w') = book (db w)
    ∧ member (db w') = member (db w)
    ∧ sale_seq (db w') = sale_seq (db w)
    ∧ stdin w' = rest
    ∧ stdout w' = SaleUpdated sid t :: out1.
Proof.
  intros Hrun Hout.
  destruct (update_sale_reads _ _ _ _ _ Hrun Hout)
    as (choice & ins & n & x & d & rest & out1 & row & b & Hin & Hn & Hlow
        & Hx & Hsid & Hd & Hrow & Hb & Ht & ->).
  exists row, b, d, choice, ins, n, x, rest, out1. cbn.
  split_and!; try done.
  by rewrite (alter_lookup_insert _ _ _ _ Hrow).
Qed.

Lemma select_sales_delete s x :
  x ∈ Sql.select_sales s →
  S (length (Sql.select_sales (Sql.delete_sale_row (l_sid x) s)))
  = length (Sql.select_sales s).
Proof.
  intros (r & m & Hr & Hm & _)%elem_of_select_sales.
  unfold Sql.select_sales. rewrite !order_by_perm. cbn.
  rewrite <- (map_to_list_delete _ _ _ Hr). cbn. by rewrite Hm.
Qed.

(** C5.  Every successful [delete_sale] removed the row of one existing
    sale and nothing else: the table has one row less, the listing of
    [list_sales] has one row less and does not show that [sid] any more,
    and the book table, the member table and the sequence value are
    untouched. *)
Theorem delete_sale_removes_one w w' sid :
  delete_sale py_int w = (Ok tt, w') →
  head (stdout w') = Some (SaleDeleted sid) →
  is_Some (sale (db w) !! sid)
  ∧ sale (db w') = delete sid (sale (db w))
  ∧ S (size (sale (db w'))) = size (sale (db w))
  ∧ sid ∈ (l_sid <$> Sql.select_sales (db w))
  ∧ (sid ∉ (l_sid <$> Sql.select_sales (db w')))
  ∧ S (length (Sql.select_sales (db w'))) = length (Sql.select_sales (db w))
  ∧ book (db w') = book (db w)
  ∧ member (db w') = member (db w)
  ∧ sale_seq (db w') = sale_seq (db w).
Proof.
  intros Hrun Hout.
  destruct (delete_sale_cases _ _ _ _ Hrun) as [[_ Hno]|Hyes].
  { by destruct (Hno eq_refl sid). }
  destruct Hyes as (x & _ & Hx & Hhd & ->).
  rewrite Hout in Hhd. injection Hhd as ->.
  pose proof Hx as (r & m & Hr & Hm & _)%elem_of_select_sales.
  cbn. split_and!; try done.
  - rewrite map_size_delete, Hr.
    assert (size (sale (db w)) ≠ 0%nat); [|lia].
    intros Hz%map_size_empty_iff. by rewrite Hz, lookup_empty in Hr.
  - apply list_elem_of_fmap. by exists x.
  - intros (y & Hy & (r' & _ & Hr' & _)%elem_of_select_sales)%list_elem_of_fmap.
    cbn in Hr'. by rewrite <- Hy, lookup_delete_eq in Hr'.
  - by apply select_sales_delete.
Qed.

Lemma update_book_stock_nonneg s k b q :
  stock_nonneg s → book s !! k = Some b → q ≤ bstock b →
  stock_nonneg (Sql.update_book_stock q k s).
Proof.
  intros Hs Hb Hq j b'. cbn.
  intros [(<- & x & Hx & ->)|[_ Hj]]%lookup_alter_Some; [|by eapply Hs].
  cbn. rewrite Hb in Hx. injection Hx as <-. lia.
Qed.

(** C7.  When no book has a negative stock before an operation, none has
    one after it, however the operation ends.  [add_sale] either leaves
    the book table as it was or lowers the stock of one book by a positive
    quantity that is at most that stock; [update_sale], [delete_sale],
    [show_report] and [list_sales] leave the book table as it was. *)
Theorem stock_nonneg_invariant w :
  stock_nonneg (db w) →
  (∀ r w', add_sale py_int w = (r, w') →
     stock_nonneg (db w')
     ∧ (book (db w') = book (db w)
        ∨ ∃ k b q,
            book (db w) !! k = Some b
            ∧ 0 < q ≤ bstock b
            ∧ book (db w')
              = <[k := BookRow (btitle b) (bprice b) (bstock b - q)]>
                  (book (db w))))
  ∧ (∀ r w', update_sale py_int w = (r, w') →
       stock_nonneg (db w') ∧ book (db w') = book (db w))
  ∧ (∀ r w', delete_sale py_int w = (r, w') →
       stock_nonneg (db w') ∧ book (db w') = book (db w))
  ∧ (∀ r w', show_report w = (r, w') →
       stock_nonneg (db w') ∧ book (db w') = book (db w))
  ∧ (∀ r w', list_sales w = (r, w') →
       stock_nonneg (db w') ∧ book (db w') = book (db w)).
Proof.
  intros Hinv. split_and!; intros r w' Hrun.
  - destruct (add_sale_cases _ _ _ _ Hrun) as [[-> _]|Hyes]; [by auto|].
    destruct Hyes as (l1 & l2 & l3 & rest & m & b & q & d & sid & _ & _ & _
                      & _ & _ & Hb & Hq & _ & _ & ->).
    split.
    + apply update_book_stock_nonneg with b; [done..|lia].
    + right. exists (Py.strip l3), b, q. split_and!; [done|lia..|].
      cbn. by rewrite (alter_lookup_insert _ _ _ _ Hb).
  - destruct (update_sale_cases _ _ _ _ Hrun) as [[-> _]|Hyes]; [done|].
    by destruct Hyes as (x & row & b & d & _ & _ & _ & _ & _ & ->).
  - destruct (delete_sale_cases _ _ _ _ Hrun) as [[-> _]|Hyes]; [done|].
    by destruct Hyes as (x & _ & _ & _ & ->).
  - rewrite show_report_run in Hrun. by injection Hrun as <- <-.
  - rewrite list_sales_run in Hrun. by injection Hrun as <- <-.
Qed.

Lemma report_sid_items (f : nat → nat) (rows : list line_item) :
  omap report_sid (uncurry report_item <$> imap (λ i row, (f i, row)) rows)
  = r_sid <$> rows.
Proof.
  revert f. induction rows as [|row rows IH]; intros f; [done|].
  rewrite imap_cons. cbn. f_equal. apply (IH (f ∘ S)).
Qed.

(** C8.  In every state of the database file, the list returned by
    [list_sales] and the blocks printed by [show_report], in the order
    they are printed, carry [sid]s in non-decreasing order. *)
Theorem sales_ordered_by_sid w :
  let sales := Sql.select_sales (db w) in
  let items := uncurry report_item <$> enumerate 1 (Sql.select_report (db w)) in
  list_sales w = (Ok sales, w)
  ∧ StronglySorted Z.le (l_sid <$> sales)
  ∧ show_report w = (Ok tt, World (db w) (stdin w) (rev items ++ stdout w))
  ∧ omap report_sid items = r_sid <$> Sql.select_report (db w)
  ∧ StronglySorted Z.le (omap report_sid items).
Proof.
  intros sales items.
  assert (omap report_sid items = r_sid <$> Sql.select_report (db w)) as Hsid
    by apply report_sid_items.
  split_and!; [done| |apply show_report_run|done|rewrite Hsid].
  - apply order_by_sorted.
  - apply order_by_sorted.
Qed.

(** C9.  [show_report] writes nothing to the database file and reads no
    input; it only prints, and called again right after, it prints the
    same blocks again. *)
Theorem show_report_pure_read w :
  ∃ items,
    show_report w = (Ok tt, World (db w) (stdin w) (items ++ stdout w))
    ∧ ∀ w1, show_report w = (Ok tt, w1) →
        db w1 = db w
        ∧ show_report w1
          = (Ok tt, World (db w) (stdin w) (items ++ stdout w1)).
Proof.
  eexists. split; [apply show_report_run|].
  intros w1. rewrite show_report_run. intros [= <-]. split; [done|].
  by rewrite show_report_run.
Qed.

(** C10.  Nothing ties the [mid] and [bid] of a sale row to the other
    tables.  A sale row appears in the list of [list_sales] exactly when a
    member row has its [mid], and in the report exactly when moreover a
    book row has its [bid]; otherwise the row is left out, and both
    functions still return normally. *)
Theorem joins_omit_unmatched_sales w sid row :
  sale (db w) !! sid = Some row →
  (sid ∈ (l_sid <$> Sql.select_sales (db w))
   ↔ is_Some (member (db w) !! mid row))
  ∧ (sid ∈ (r_sid <$> Sql.select_report (db w))
     ↔ is_Some (member (db w) !! mid row) ∧ is_Some (book (db w) !! bid row))
  ∧ list_sales w = (Ok (Sql.select_sales (db w)), w)
  ∧ ∃ items,
      show_report w = (Ok tt, World (db w) (stdin w) (rev items ++ stdout w))
      ∧ omap report_sid items = r_sid <$> Sql.select_report (db w).
Proof.
  intros Hrow. split_and!.
  - rewrite list_elem_of_fmap. split.
    + intros (x & -> & (r & m & Hr & Hm & _)%elem_of_select_sales).
      rewrite Hrow in Hr. injection Hr as <-. by exists m.
    + intros [m Hm]. exists (Listing sid (mname m) (sdate row)).
      split; [done|]. apply elem_of_select_sales. by exists row, m.
  - rewrite list_elem_of_fmap. split.
    + intros (x & -> & (r & m & b & Hr & Hm & Hb & _)%elem_of_select_report).
      rewrite Hrow in Hr. injection Hr as <-. split; by eexists.
    + intros [[m Hm] [b Hb]].
      exists (LineItem sid (sdate row) (mname m) (btitle b) (bprice b)
                       (sqty row) (sdiscount row) (stotal row)).
      split; [done|]. apply elem_of_select_report. by exists row, m, b.
  - done.
  - eexists. split; [apply show_report_run|]. apply report_sid_items.
Qed.

End Ledger.

(** ** The sample sessions *)

Section Samples.

Import Sample.

(** The report of the seeded database, the latest block first. *)
Example show_report_seed :
  show_report (World initial_db [] [])
  = (Ok tt,
     World initial_db []
       [ ReportItem 4 4 "2024-01-18" "Cathy" "Python Programming" 600 1 0 600;
         ReportItem 3 3 "2024-01-17" "Alice" "Machine Learning Guide"
                    1200 3 200 3400;
         ReportItem 2 2 "2024-01-16" "Bob" "Data Science Basics" 800 1 50 750;
         ReportItem 1 1 "2024-01-15" "Alice" "Python Programming"
                    600 2 100 1100 ]%string).
Proof. vm_compute. reflexivity. Qed.

(** A date that is no calendar date goes through; lines that are not a
    positive integer are asked again. *)
Example add_sale_unchecked_date :
  add_sale Decimal.read
    (World initial_db
       ["  9999-99-99 "; "M001"; "B001"; "two"; "0"; "2"; "100"]%string [])
  = (Ok tt,
     World (Store (member initial_db)
              (<["B001"%string := BookRow "Python Programming" 600 48]>
                 (book initial_db))
              (<[5 := SaleRow "9999-99-99" "M001" "B001" 2 100 1100]>
                 (sale initial_db))
              5)
       [] [SaleAdded 1100; NotPositive; NotAnInteger]).
Proof. vm_compute. reflexivity. Qed.

(** [input_int] with [allow_zero] skips the sign test, so a negative
    discount is taken as it is. *)
Example add_sale_negative_discount :
  add_sale Decimal.read
    (World initial_db ["2024-05-01"; "M001"; "B001"; "5"; "-100"]%string [])
  = (Ok tt,
     World (Store (member initial_db)
              (<["B001"%string := BookRow "Python Programming" 600 45]>
                 (book initial_db))
              (<[5 := SaleRow "2024-05-01" "M001" "B001" 5 (-100) 3100]>
                 (sale initial_db))
              5)
       [] [SaleAdded 3100]).
Proof. vm_compute. reflexivity. Qed.

(** A [sid] is not used again after its row is deleted. *)
Example add_sale_after_delete :
  (add_sale Decimal.read
     (World (Sql.delete_sale_row 4 initial_db) sale_lines [])).2
  = World (Store (member initial_db)
             (<["B001"%string := BookRow "Python Programming" 600 48]>
                (book initial_db))
             (<[5 := SaleRow "2024-05-01" "M001" "B001" 2 100 1100]>
                (delete 4 (sale initial_db)))
             5)
      [] [SaleAdded 1100].
Proof. vm_compute. reflexivity. Qed.

(** Twenty copies of B001 lower its stock from 50 to 30; the other two
    book rows stay. *)
Lemma add_sale_stock_decrement_witness :
  let w := World initial_db bulk_lines [] in
  let w' := World after_bulk [] [SaleAdded 12000] in
  add_sale Decimal.read w = (Ok tt, w')
  ∧ head (stdout w') = Some (SaleAdded 12000)
  ∧ bstock <$> book (db w) !! "B001"%string = Some 50
  ∧ bstock <$> book (db w') !! "B001"%string = Some 30
  ∧ ∃ sid row b rest1 out1,
      sale (db w) !! sid = None
      ∧ sale (db w') !! sid = Some row
      ∧ Py.strip <$> stdin w !! 1%nat = Some (mid row)
      ∧ Py.strip <$> stdin w !! 2%nat = Some (bid row)
      ∧ input_int_loop Decimal.read true false (drop 3 (stdin w)) (stdout w)
        = (Ok (sqty row), rest1, out1)
      ∧ is_Some (member (db w) !! mid row)
      ∧ book (db w) !! bid row = Some b
      ∧ 0 < sqty row ≤ bstock b
      ∧ book (db w')
        = <[bid row := BookRow (btitle b) (bprice b) (bstock b - sqty row)]>
            (book (db w))
      ∧ bstock <$> book (db w') !! bid row = Some (bstock b - sqty row)
      ∧ 0 ≤ bstock b - sqty row
      ∧ ∀ k, k ≠ bid row → book (db w') !! k = book (db w) !! k.
Proof.
  intros w w'.
  assert (add_sale Decimal.read w = (Ok tt, w')) as Hrun
    by (vm_compute; reflexivity).
  split_and!; [exact Hrun|reflexivity|vm_compute; reflexivity..|].
  exact (add_sale_stock_decrement Decimal.read w w' 12000 Hrun eq_refl).
Defined.

(** An unknown member, then a quantity of 51 against a stock of 50. *)
Lemma add_sale_rejection_atomic_witness :
  Py.len (Py.strip "2024-05-01") = DATE_FORMAT_LENGTH
  ∧ Py.count "-" (Py.strip "2024-05-01") = 2%nat
  ∧ add_sale Decimal.read
      (World initial_db ["2024-05-01"; "M999"; "B001"; "2"]%string [])
    = (Ok tt, World initial_db ["2"%string] [InvalidMemberOrBook])
  ∧ add_sale Decimal.read
      (World initial_db ["2024-05-01"; "M001"; "B001"; "51"; "0"]%string [])
    = (Ok tt, World initial_db ["0"%string] [InsufficientStock 50])
  ∧ ∀ r w',
      add_sale Decimal.read
        (World initial_db ["2024-05-01"; "M001"; "B001"; "zero"]%string [])
      = (r, w') →
      (∀ t, head (stdout w') ≠ Some (SaleAdded t)) →
      db w' = initial_db.
Proof.
  split_and!; [reflexivity..| | |].
  - destruct (add_sale_rejection_atomic Decimal.read initial_db
                "2024-05-01" "M999" "B001" ["2"%string] [] eq_refl eq_refl)
      as (Hunknown & _ & _).
    apply Hunknown. left. vm_compute. reflexivity.
  - destruct (add_sale_rejection_atomic Decimal.read initial_db
                "2024-05-01" "M001" "B001" ["51"; "0"]%string []
                eq_refl eq_refl)
      as (_ & Hstock & _).
    apply (Hstock (BookRow "Python Programming" 600 50) 51).
    + vm_compute. eexists. reflexivity.
    + vm_compute. reflexivity.
    + vm_compute. reflexivity.
    + reflexivity.
  - apply (add_sale_rejection_atomic Decimal.read initial_db
             "2024-05-01" "M001" "B001" ["zero"%string] [] eq_refl eq_refl).
Defined.

(** Two copies of a book priced 600 with the discount 100: the row is
    stored under [sid] 5 with the total 600 * 2 - 100 = 1100. *)
Lemma add_sale_total_witness :
  let w := World initial_db sale_lines [] in
  let w' := World after_sale [] [SaleAdded 1100] in
  add_sale Decimal.read w = (Ok tt, w')
  ∧ head (stdout w') = Some (SaleAdded 1100)
  ∧ bprice <$> book (db w) !! "B001"%string = Some 600
  ∧ sale (db w') !! 5 = Some (SaleRow "2024-05-01" "M001" "B001" 2 100 1100)
  ∧ ∃ sid row b rest1 out1 rest2 out2,
      sale (db w) !! sid = None
      ∧ (∀ k, is_Some (sale (db w) !! k) → k < sid)
      ∧ sale_seq (db w) < sid
      ∧ sale (db w') = <[sid := row]> (sale (db w))
      ∧ sale_seq (db w') = sid
      ∧ Py.strip <$> stdin w !! 0%nat = Some (sdate row)
      ∧ Py.strip <$> stdin w !! 1%nat = Some (mid row)
      ∧ Py.strip <$> stdin w !! 2%nat = Some (bid row)
      ∧ input_int_loop Decimal.read true false (drop 3 (stdin w)) (stdout w)
        = (Ok (sqty row), rest1, out1)
      ∧ input_int_loop Decimal.read false true rest1 out1
        = (Ok (sdiscount row), rest2, out2)
      ∧ book (db w) !! bid row = Some b
      ∧ stotal row = bprice b * sqty row - sdiscount row
      ∧ 1100 = stotal row
      ∧ stdin w' = rest2
      ∧ stdout w' = SaleAdded 1100 :: out2.
Proof.
  intros w w'.
  assert (add_sale Decimal.read w = (Ok tt, w')) as Hrun
    by (vm_compute; reflexivity).
  split_and!; [exact Hrun|reflexivity|vm_compute; reflexivity..|].
  exact (add_sale_total Decimal.read w w' 1100 Hrun eq_refl).
Defined.

(** Sale 2 (one copy of a book priced 800, discount 50, total 750) gets the
    discount 100: the row changes to the discount 100 and the total 700. *)
Lemma update_sale_recomputes_total_witness :
  let w := World initial_db discount_lines [] in
  let w' := World after_discount [] (SaleUpdated 2 700 :: listing_printed) in
  update_sale Decimal.read w = (Ok tt, w')
  ∧ head (stdout w') = Some (SaleUpdated 2 700)
  ∧ sale (db w) !! 2 = Some (SaleRow "2024-01-16" "M002" "B002" 1 50 750)
  ∧ sale (db w') !! 2 = Some (SaleRow "2024-01-16" "M002" "B002" 1 100 700)
  ∧ ∃ row b d choice ins n x rest out1,
      stdin w = choice :: ins
      ∧ Decimal.read choice = Some n
      ∧ 1 ≤ n
      ∧ Sql.select_sales (db w) !! Z.to_nat (n - 1) = Some x
      ∧ l_sid x = 2
      ∧ input_int_loop Decimal.read false true ins
          (sale_listing (Sql.select_sales (db w)) ++ stdout w)
        = (Ok d, rest, out1)
      ∧ sale (db w) !! 2 = Some row
      ∧ book (db w) !! bid row = Some b
      ∧ 700 = bprice b * sqty row - d
      ∧ sale (db w')
        = <[2 := SaleRow (sdate row) (mid row) (bid row) (sqty row) d 700]>
            (sale (db w))
      ∧ book (db w') = book (db w)
      ∧ member (db w') = member (db w)
      ∧ sale_seq (db w') = sale_seq (db w)
      ∧ stdin w' = rest
      ∧ stdout w' = SaleUpdated 2 700 :: out1.
Proof.
  intros w w'.
  assert (update_sale Decimal.read w = (Ok tt, w')) as Hrun
    by (vm_compute; reflexivity).
  split_and!; [exact Hrun|reflexivity|vm_compute; reflexivity..|].
  exact (update_sale_recomputes_total Decimal.read w w' 2 700 Hrun eq_refl).
Defined.

(** Sale 3 is deleted. *)
Lemma delete_sale_removes_one_witness :
  let w := World initial_db delete_lines [] in
  let w' := World after_delete [] (SaleDeleted 3 :: listing_printed) in
  delete_sale Decimal.read w = (Ok tt, w')
  ∧ head (stdout w') = Some (SaleDeleted 3)
  ∧ is_Some (sale (db w) !! 3)
  ∧ sale (db w') = delete 3 (sale (db w))
  ∧ S (size (sale (db w'))) = size (sale (db w))
  ∧ 3 ∈ (l_sid <$> Sql.select_sales (db w))
  ∧ (3 ∉ (l_sid <$> Sql.select_sales (db w')))
  ∧ S (length (Sql.select_sales (db w'))) = length (Sql.select_sales (db w))
  ∧ book (db w') = book (db w)
  ∧ member (db w') = member (db w)
  ∧ sale_seq (db w') = sale_seq (db w).
Proof.
  intros w w'.
  assert (delete_sale Decimal.read w = (Ok tt, w')) as Hrun
    by (vm_compute; reflexivity).
  split; [exact Hrun|]. split; [reflexivity|].
  exact (delete_sale_removes_one Decimal.read w w' 3 Hrun eq_refl).
Defined.

Lemma initial_db_stock_nonneg : stock_nonneg initial_db.
Proof. apply (bool_decide_unpack _). vm_compute. exact I. Defined.

(** The seeded database keeps its stocks non-negative through the sample
    sale. *)
Lemma stock_nonneg_invariant_witness :
  let w := World initial_db sale_lines [] in
  stock_nonneg (db w)
  ∧ stock_nonneg after_sale
  ∧ (book after_sale = book initial_db
     ∨ ∃ k b q,
         book initial_db !! k = Some b
         ∧ 0 < q ≤ bstock b
         ∧ book after_sale
           = <[k := BookRow (btitle b) (bprice b) (bstock b - q)]>
               (book initial_db)).
Proof.
  intros w. split; [exact initial_db_stock_nonneg|].
  destruct (stock_nonneg_invariant Decimal.read w initial_db_stock_nonneg)
    as (Hadd & _).
  apply (Hadd (Ok tt) (World after_sale [] [SaleAdded 1100])).
  vm_compute. reflexivity.
Defined.

(** Sale 9 names the unknown member M999: neither the listing nor the report
    shows it, while sale 4 is in both. *)
Lemma joins_omit_unmatched_sales_witness :
  let w := World orphan_db [] [] in
  sale (db w) !! 9 = Some orphan_row
  ∧ member (db w) !! mid orphan_row = None
  ∧ (9 ∉ (l_sid <$> Sql.select_sales (db w)))
  ∧ (9 ∉ (r_sid <$> Sql.select_report (db w)))
  ∧ list_sales w = (Ok (Sql.select_sales (db w)), w).
Proof.
  intros w.
  assert (sale (db w) !! 9 = Some orphan_row) as Hrow
    by (vm_compute; reflexivity).
  assert (member (db w) !! mid orphan_row = None) as Hnone
    by (vm_compute; reflexivity).
  destruct (joins_omit_unmatched_sales w 9 orphan_row Hrow)
    as (Hlist & Hreport & Hrun & _).
  split_and!; [exact Hrow|exact Hnone| | |exact Hrun].
  - intros [m Hm]%Hlist. rewrite Hnone in Hm. discriminate Hm.
  - intros [[m Hm] _]%Hreport. rewrite Hnone in Hm. discriminate Hm.
Defined.

End Samples.

(** * Further properties of the script *)

(** ** [input_int] *)

Section InputInt.

Variable py_int : string → option Z.

Implicit Types (w : world) (s : store) (out : list message).

Lemma input_int_loop_refused po az pre lines out :
  Forall (refused py_int po az) pre →
  ∃ errs,
    length errs = length pre
    ∧ input_int_loop py_int po az (pre ++ lines) out
      = input_int_loop py_int po az lines (errs ++ out).
Proof.
  intros Hpre. revert out.
  induction Hpre as [|l pre Hl _ IH]; intros out; [by exists []|].
  unfold refused, int_accepted in Hl. cbn.
  destruct (py_int l) as [v|]; cbn in Hl.
  - destruct (po && (v <=? 0)); cbn in Hl.
    + destruct (IH (NotPositive :: out)) as (errs & Hlen & ->).
      exists (errs ++ [NotPositive]).
      rewrite length_app, <- app_assoc. cbn. split; [lia|done].
    + apply negb_false_iff in Hl. rewrite Hl.
      destruct (IH (Negative :: out)) as (errs & Hlen & ->).
      exists (errs ++ [Negative]).
      rewrite length_app, <- app_assoc. cbn. split; [lia|done].
  - destruct (IH (NotAnInteger :: out)) as (errs & Hlen & ->).
    exists (errs ++ [NotAnInteger]).
    rewrite length_app, <- app_assoc. cbn. split; [lia|done].
Qed.

Lemma input_int_loop_takes po az l v rest out :
  py_int l = Some v → int_accepted po az v = true →
  input_int_loop py_int po az (l :: rest) out = (Ok v, rest, out).
Proof.
  unfold int_accepted. intros Hl [H1 H2]%andb_true_iff. cbn. rewrite Hl.
  apply negb_true_iff in H1, H2. by rewrite H1, H2.
Qed.

(** X1.  [input_int] asks again for every line that is not an integer or
    fails a test, printing one line of error each time, and returns the
    value of the first line that passes; the lines after it stay pending
    and the database file is not touched. *)
Theorem input_int_first_accepted po az s pre l v rest out :
  Forall (refused py_int po az) pre →
  py_int l = Some v →
  int_accepted po az v = true →
  ∃ errs,
    length errs = length pre
    ∧ input_int py_int po az (World s (pre ++ l :: rest) out)
      = (Ok v, World s rest (errs ++ out)).
Proof.
  intros Hpre Hl Hv.
  destruct (input_int_loop_refused po az pre (l :: rest) out Hpre)
    as (errs & Hlen & Hrun).
  exists errs. split; [done|]. unfold input_int. cbn.
  by rewrite Hrun, (input_int_loop_takes _ _ _ _ _ _ Hl Hv).
Qed.

(** X2.  When no pending line passes, [input_int] has read them all,
    printed one line of error for each, and ends with [EOFError]. *)
Theorem input_int_end_of_input po az s lines out :
  Forall (refused py_int po az) lines →
  ∃ errs,
    length errs = length lines
    ∧ input_int py_int po az (World s lines out)
      = (Raise EOFError, World s [] (errs ++ out)).
Proof.
  intros Hpre.
  destruct (input_int_loop_refused po az lines [] out Hpre)
    as (errs & Hlen & Hrun).
  exists errs. split; [done|]. unfold input_int. cbn.
  rewrite <- (app_nil_r lines) at 1. by rewrite Hrun.
Qed.



End InputInt.

(** ** Runs of the sale functions *)

Section Runs.

Variable py_int : string → option Z.

Implicit Types (w : world) (s : store) (out : list message).

Ltac run_forward :=
  unfold mbind, M_bind, fmap, M_fmap, mret, M_ret, input, print, connect,
    commit, raise, input_int; cbn -[forallb input_int_loop].

Lemma date_check_passes sdate :
  Py.len sdate = DATE_FORMAT_LENGTH → Py.count "-" sdate = 2%nat →
  negb (Py.len sdate =? DATE_FORMAT_LENGTH)%nat
  || negb (Py.count "-" sdate =? 2)%nat = false.
Proof. intros. by apply date_check. Qed.

Lemma accepted_iff po az v :
  int_accepted po az v = true
  ↔ (po = true → 0 < v) ∧ (po = false → az = false → 0 ≤ v).
Proof.
  unfold int_accepted.
  destruct (Z.leb_spec v 0), (Z.ltb_spec v 0), po, az; cbn;
    split; try done; try lia; intros [H1 H2];
    try specialize (H1 eq_refl); try specialize (H2 eq_refl eq_refl); lia.
Qed.

(** X4.  With a date of the right format, a member and a book that exist, a
    positive quantity within the stock and any integer as discount, negative
    ones included, [add_sale] stores the sale under the next [sid], lowers
    the stock and prints the total. *)
Theorem add_sale_succeeds s l1 l2 l3 lq ld rest out m b q d sid :
  Py.len (Py.strip l1) = DATE_FORMAT_LENGTH →
  Py.count "-" (Py.strip l1) = 2%nat →
  member s !! Py.strip l2 = Some m →
  book s !! Py.strip l3 = Some b →
  py_int lq = Some q → 0 < q ≤ bstock b →
  py_int ld = Some d →
  forallb Py.fits_int64 [q; d; bprice b * q - d] = true →
  Sql.new_rowid s = Some sid →
  add_sale py_int (World s (l1 :: l2 :: l3 :: lq :: ld :: rest) out)
  = (Ok tt,
     World (Store (member s)
              (<[Py.strip l3 := BookRow (btitle b) (bprice b) (bstock b - q)]>
                 (book s))
              (<[sid := SaleRow (Py.strip l1) (Py.strip l2) (Py.strip l3)
                          q d (bprice b * q - d)]> (sale s))
              sid)
       rest (SaleAdded (bprice b * q - d) :: out)).
Proof.
  intros Hlen Hcount Hm Hb Hq Hrange Hd Hfits Hsid.
  unfold add_sale. run_forward.
  rewrite (date_check_passes _ Hlen Hcount). cbn -[forallb input_int_loop].
  rewrite Hm, Hb. cbn -[forallb input_int_loop].
  assert (int_accepted true false q = true) as Hacc
    by (apply accepted_iff; split; [lia|done]).
  rewrite (input_int_loop_takes py_int true false lq q _ _ Hq Hacc).
  cbn -[forallb input_int_loop].
  replace (bstock b <? q) with false by lia. cbn -[forallb input_int_loop].
  rewrite (input_int_loop_takes py_int false true ld d _ _ Hd eq_refl).
  cbn -[forallb]. rewrite Hfits. cbn.
  unfold Sql.insert_sale. rewrite Hsid. cbn.
  unfold Sql.update_book_stock. cbn.
  by rewrite (alter_lookup_insert _ _ _ _ Hb).
Qed.

Ltac run_choice :=
  rewrite bind_run, list_sales_run, bind_run, print_sales_listing;
  cbn [db stdin stdout]; run_forward.

(** X5.  An empty line as choice cancels [update_sale] and [delete_sale]:
    the listing has been shown, the line is read, nothing else happens. *)
Theorem empty_choice_cancels s rest out :
  let shown := sale_listing (Sql.select_sales s) ++ out in
  update_sale py_int (World s (EmptyString :: rest) out)
  = (Ok tt, World s rest shown)
  ∧ delete_sale py_int (World s (EmptyString :: rest) out)
    = (Ok tt, World s rest shown).
Proof. split; [unfold update_sale|unfold delete_sale]; by run_choice. Qed.

(** X6.  A choice that is no integer, or an integer outside 1 .. the number
    of listed sales, is answered by the invalid-number line; the database
    file is as before and no further line is read. *)
Theorem invalid_choice_rejected s choice rest out :
  choice ≠ EmptyString →
  (py_int choice = None
   ∨ ∃ n, py_int choice = Some n
          ∧ (n < 1 ∨ Z.of_nat (length (Sql.select_sales s)) < n)) →
  let shown := InvalidNumber :: sale_listing (Sql.select_sales s) ++ out in
  update_sale py_int (World s (choice :: rest) out)
  = (Ok tt, World s rest shown)
  ∧ delete_sale py_int (World s (choice :: rest) out)
    = (Ok tt, World s rest shown).
Proof.
  intros Hne Hbad shown.
  split; [unfold update_sale|unfold delete_sale]; run_choice;
    rewrite bool_decide_false by done;
    (destruct Hbad as [->|(n & -> & Hn)]; [done|]);
    destruct (n - 1 <? 0) eqn:Hlow; cbn; try done;
    replace (_ <=? n - 1) with true by lia; done.
Qed.

(** X7.  The integer [n] chosen in [delete_sale] stands for the [n]-th row
    of the listing, which is in [sid] order; the sale of that row, and only
    it, is deleted. *)
Theorem delete_sale_takes_nth s choice n x rest out :
  choice ≠ EmptyString →
  py_int choice = Some n →
  1 ≤ n →
  Sql.select_sales s !! Z.to_nat (n - 1) = Some x →
  delete_sale py_int (World s (choice :: rest) out)
  = (Ok tt,
     World (Sql.delete_sale_row (l_sid x) s) rest
       (SaleDeleted (l_sid x) :: sale_listing (Sql.select_sales s) ++ out)).
Proof.
  intros Hne Hn Hlow Hx. unfold delete_sale. run_choice.
  rewrite bool_decide_false by done. rewrite Hn.
  apply lookup_lt_Some in Hx as Hlen.
  replace (n - 1 <? 0) with false by lia.
  replace (_ <=? n - 1) with false by lia. cbn.
  by rewrite Hx.
Qed.

(** X8.  The integer [n] chosen in [update_sale] stands for the [n]-th row
    of the listing; with any integer as new discount, the sale of that row
    gets this discount and the total computed from the price its book has
    now. *)
Theorem update_sale_takes_nth s choice n x ld d row b rest out :
  choice ≠ EmptyString →
  py_int choice = Some n →
  1 ≤ n →
  Sql.select_sales s !! Z.to_nat (n - 1) = Some x →
  py_int ld = Some d →
  sale s !! l_sid x = Some row →
  book s !! bid row = Some b →
  forallb Py.fits_int64 [d; bprice b * sqty row - d] = true →
  update_sale py_int (World s (choice :: ld :: rest) out)
  = (Ok tt,
     World (Store (member s) (book s)
              (<[l_sid x := SaleRow (sdate row) (mid row) (bid row) (sqty row)
                              d (bprice b * sqty row - d)]> (sale s))
              (sale_seq s))
       rest
       (SaleUpdated (l_sid x) (bprice b * sqty row - d)
        :: sale_listing (Sql.select_sales s) ++ out)).
Proof.
  intros Hne Hn Hlow Hx Hd Hrow Hb Hfits. unfold update_sale. run_choice.
  rewrite bool_decide_false by done. rewrite Hn.
  apply lookup_lt_Some in Hx as Hlen.
  replace (n - 1 <? 0) with false by lia.
  replace (_ <=? n - 1) with false by lia. cbn.
  rewrite Hx. cbn -[forallb input_int_loop].
  rewrite (input_int_loop_takes py_int false true ld d _ _ Hd eq_refl).
  cbn -[forallb]. rewrite Hrow. cbn -[forallb]. rewrite Hb.
  cbn [forallb] in Hfits. cbn -[Py.fits_int64]. rewrite Hfits. cbn.
  unfold Sql.update_sale_discount.
  by rewrite (alter_lookup_insert _ _ _ _ Hrow).
Qed.

(** X9.  When the book of the chosen sale is not in the book table,
    [update_sale] ends with the [TypeError] of the subscript on [None];
    the new discount has been read and nothing is written. *)
Theorem update_sale_book_missing s choice n x ld d row rest out :
  choice ≠ EmptyString →
  py_int choice = Some n →
  1 ≤ n →
  Sql.select_sales s !! Z.to_nat (n - 1) = Some x →
  py_int ld = Some d →
  sale s !! l_sid x = Some row →
  book s !! bid row = None →
  update_sale py_int (World s (choice :: ld :: rest) out)
  = (Raise TypeError,
     World s rest (sale_listing (Sql.select_sales s) ++ out)).
Proof.
  intros Hne Hn Hlow Hx Hd Hrow Hb. unfold update_sale. run_choice.
  rewrite bool_decide_false by done. rewrite Hn.
  apply lookup_lt_Some in Hx as Hlen.
  replace (n - 1 <? 0) with false by lia.
  replace (_ <=? n - 1) with false by lia. cbn.
  rewrite Hx. cbn -[input_int_loop].
  rewrite (input_int_loop_takes py_int false true ld d _ _ Hd eq_refl).
  cbn. rewrite Hrow. cbn. by rewrite Hb.
Qed.

(** X10.  A call of [add_sale], [update_sale] or [delete_sale] that ends
    with an exception has written nothing to the database file. *)
Theorem exception_leaves_file w e w' :
  (add_sale py_int w = (Raise e, w') → db w' = db w)
  ∧ (update_sale py_int w = (Raise e, w') → db w' = db w)
  ∧ (delete_sale py_int w = (Raise e, w') → db w' = db w).
Proof.
  split_and!; intros Hrun.
  - destruct (add_sale_cases _ _ _ _ Hrun) as [[? _]|Hyes]; [done|].
    by destruct Hyes as (? & ? & ? & ? & ? & ? & ? & ? & ? & [=] & _).
  - destruct (update_sale_cases _ _ _ _ Hrun) as [[? _]|Hyes]; [done|].
    by destruct Hyes as (? & ? & ? & ? & [=] & _).
  - destruct (delete_sale_cases _ _ _ _ Hrun) as [[? _]|Hyes]; [done|].
    by destruct Hyes as (? & [=] & _).
Qed.

End Runs.

(** ** Listings and composed calls *)

Section Listings.

Variable py_int : string → option Z.

Implicit Types (w : world) (s : store).

Lemma omap_keys_sublist {A V} (key : A → Z) (f : Z * V → option A)
    (l : list (Z * V)) :
  (∀ kv x, f kv = Some x → key x = kv.1) →
  (key <$> omap f l) `sublist_of` l.*1.
Proof.
  intros Hkey. induction l as [|kv l IH]; cbn; [done|].
  destruct (f kv) as [x|] eqn:Hx; cbn.
  - rewrite (Hkey _ _ Hx). by apply sublist_skip.
  - by apply sublist_cons.
Qed.

Lemma sorted_nodup_strict (l : list Z) :
  StronglySorted Z.le l → NoDup l → StronglySorted Z.lt l.
Proof.
  induction 1 as [|x l _ IH Hall]; intros Hnd; [constructor|].
  apply NoDup_cons in Hnd as [Hx Hnd]. constructor; [by apply IH|].
  apply Forall_forall. intros y Hy.
  rewrite Forall_forall in Hall. specialize (Hall y Hy).
  assert (x ≠ y) by (by intros ->). lia.
Qed.

Lemma order_by_keys_strict {A V} (key : A → Z) (f : Z * V → option A)
    (t : gmap Z V) :
  (∀ kv x, f kv = Some x → key x = kv.1) →
  StronglySorted Z.lt (key <$> Sql.order_by key (omap f (map_to_list t))).
Proof.
  intros Hkey. apply sorted_nodup_strict; [apply order_by_sorted|].
  rewrite order_by_perm.
  eapply sublist_NoDup; [apply (NoDup_fst_map_to_list t)|].
  by apply omap_keys_sublist.
Qed.

(** X11.  In the list of [list_sales] and in the report the [sid]s are
    strictly increasing: a sale is never shown twice, so a position in the
    listing stands for one sale only. *)
Theorem listings_strictly_increasing s :
  StronglySorted Z.lt (l_sid <$> Sql.select_sales s)
  ∧ StronglySorted Z.lt (r_sid <$> Sql.select_report s).
Proof.
  split; apply order_by_keys_strict; intros [k r] x; cbn.
  - destruct (member s !! mid r); [|done]. by intros [= <-].
  - destruct (member s !! mid r); [|done]. cbn.
    destruct (book s !! bid r); [|done]. by intros [= <-].
Qed.

(** X12.  Deleting the sale that [add_sale] has just stored brings the sale
    table back to what it was, but not the rest: the book table stays as
    the sale left it, with the lowered stock, and the [sid] is spent, the
    next INSERT gets a larger one. *)
Theorem delete_does_not_undo_add w w1 w2 t :
  add_sale py_int w = (Ok tt, w1) →
  head (stdout w1) = Some (SaleAdded t) →
  delete_sale py_int w1 = (Ok tt, w2) →
  head (stdout w2) = Some (SaleDeleted (sale_seq (db w1))) →
  sale (db w2) = sale (db w)
  ∧ member (db w2) = member (db w)
  ∧ book (db w2) = book (db w1)
  ∧ (∃ k b b', book (db w) !! k = Some b ∧ book (db w2) !! k = Some b'
               ∧ bstock b' < bstock b)
  ∧ sale_seq (db w) < sale_seq (db w2)
  ∧ ∀ sid, Sql.new_rowid (db w2) = Some sid → sale_seq (db w1) < sid.
Proof.
  intros Hadd Hadded Hdel Hdeleted.
  destruct (add_sale_cases _ _ _ _ Hadd) as [[_ Hno]|Hyes].
  { by destruct (Hno eq_refl t). }
  destruct Hyes as (l1 & l2 & l3 & rest & m & b & q & d & sid0 & _ & _ & _ & _
                    & _ & Hb & Hq & Hsid & _ & Hdb1).
  destruct (delete_sale_cases _ _ _ _ Hdel) as [[_ Hno]|Hyes].
  { by destruct (Hno eq_refl (sale_seq (db w1))). }
  destruct Hyes as (x & _ & _ & Hhd & Hdb2).
  rewrite Hdeleted in Hhd. injection Hhd as Hx.
  rewrite Hdb2, <- Hx, Hdb1. cbn.
  apply new_rowid_fresh in Hsid as (Hfresh & _ & Hseq).
  split_and!; try done.
  - by apply delete_insert_id.
  - exists (Py.strip l3), b, (BookRow (btitle b) (bprice b) (bstock b - q)).
    rewrite lookup_alter_eq, Hb. cbn. split_and!; [done..|lia].
  - intros sid (_ & _ & Hnext)%new_rowid_fresh. by cbn in Hnext.
Qed.

End Listings.

(** ** [initialize_database] *)

Section Start.

Implicit Types (s : store).

(** INSERT OR IGNORE adds the rows whose key is free and keeps the table
    otherwise. *)
Lemma insert_or_ignore_union `{Countable K} {V}
    (rows : list (K * V)) (t : gmap K V) :
  Sql.insert_or_ignore rows t = t ∪ list_to_map rows.
Proof.
  unfold Sql.insert_or_ignore. revert t.
  induction rows as [|[k v] rows IH]; intros t; cbn.
  { by rewrite (right_id_L ∅ (∪)). }
  rewrite IH. destruct (t !! k) as [v'|] eqn:Hk.
  - apply map_eq. intros j. rewrite !lookup_union, lookup_insert.
    case_decide as Hj; [|done]. rewrite <- Hj, Hk.
    by destruct (list_to_map rows !! k).
  - by rewrite <- insert_union_l, insert_union_r.
Qed.

Lemma insert_or_ignore_sale_union rows (t : gmap Z sale_row) seq :
  (Sql.insert_or_ignore_sale rows t seq).1 = t ∪ list_to_map rows
  ∧ seq ≤ (Sql.insert_or_ignore_sale rows t seq).2
  ∧ (map_Forall (λ k _, k ≤ seq) t →
     map_Forall (λ k _, k ≤ (Sql.insert_or_ignore_sale rows t seq).2)
                (Sql.insert_or_ignore_sale rows t seq).1).
Proof.
  unfold Sql.insert_or_ignore_sale. revert t seq.
  induction rows as [|[k v] rows IH]; intros t seq; cbn.
  { by rewrite (right_id_L ∅ (∪)). }
  destruct (t !! k) as [v'|] eqn:Hk.
  - destruct (IH t seq) as (-> & Hseq & Hcov). split_and!; [|done..].
    apply map_eq. intros j. rewrite !lookup_union, lookup_insert.
    case_decide as Hj; [|done]. rewrite <- Hj, Hk.
    by destruct (list_to_map rows !! k).
  - destruct (IH (<[k := v]> t) (Z.max seq k)) as (-> & Hseq & Hcov).
    split_and!; [by rewrite <- insert_union_l, insert_union_r|lia|].
    intros Ht. apply Hcov. apply map_Forall_insert_2; [lia|].
    eapply map_Forall_impl; [done|]. cbn. lia.
Qed.

Lemma insert_or_ignore_sale_present rows (t : gmap Z sale_row) seq :
  Forall (λ kv, is_Some (t !! kv.1)) rows →
  Sql.insert_or_ignore_sale rows t seq = (t, seq).
Proof.
  unfold Sql.insert_or_ignore_sale.
  induction 1 as [|[k v] rows [v' Hk] _ IH]; cbn in *; [done|].
  by rewrite Hk.
Qed.

Lemma initialize_database_tables s :
  member (initialize_database s) = member s ∪ list_to_map seed_member
  ∧ book (initialize_database s) = book s ∪ list_to_map seed_book
  ∧ sale (initialize_database s) = sale s ∪ list_to_map seed_sale
  ∧ sale_seq (initialize_database s)
    = (Sql.insert_or_ignore_sale seed_sale (sale s) (sale_seq s)).2.
Proof.
  unfold initialize_database.
  pose proof (insert_or_ignore_sale_union seed_sale (sale s) (sale_seq s))
    as (Hsale & _ & _).
  destruct (Sql.insert_or_ignore_sale seed_sale (sale s) (sale_seq s))
    as [t seq].
  cbn [member book sale sale_seq fst snd] in *.
  by rewrite !insert_or_ignore_union, Hsale.
Qed.

Lemma seed_sale_lookup k r :
  (k, r) ∈ seed_sale →
  (list_to_map seed_sale : gmap Z sale_row) !! k = Some r.
Proof.
  apply elem_of_list_to_map_1, (bool_decide_unpack _). by vm_compute.
Qed.

(** X13.  A start of the program adds to each table the seed rows whose
    key is free and changes no row that is there; the sequence value does
    not go down. *)
Theorem initialize_database_keeps_rows s :
  member (initialize_database s) = member s ∪ list_to_map seed_member
  ∧ book (initialize_database s) = book s ∪ list_to_map seed_book
  ∧ sale (initialize_database s) = sale s ∪ list_to_map seed_sale
  ∧ member s ⊆ member (initialize_database s)
  ∧ book s ⊆ book (initialize_database s)
  ∧ sale s ⊆ sale (initialize_database s)
  ∧ sale_seq s ≤ sale_seq (initialize_database s).
Proof.
  destruct (initialize_database_tables s) as (Hm & Hb & Hs & Hseq).
  rewrite Hm, Hb, Hs, Hseq.
  split_and!; try done; try apply map_union_subseteq_l.
  apply insert_or_ignore_sale_union.
Qed.

(** X14.  A seed sale that was deleted is back after the next start of the
    program, with its seed values. *)
Theorem start_restores_seed_sale s k r :
  (k, r) ∈ seed_sale →
  sale (initialize_database (Sql.delete_sale_row k s)) !! k = Some r.
Proof.
  intros Hin.
  destruct (initialize_database_tables (Sql.delete_sale_row k s))
    as (_ & _ & -> & _).
  cbn [Sql.delete_sale_row sale].
  rewrite lookup_union_r by apply lookup_delete_eq.
  by apply seed_sale_lookup.
Qed.

(** X15.  Starting the program twice in a row gives the same database file
    as starting it once. *)
Theorem initialize_database_idempotent s :
  initialize_database (initialize_database s) = initialize_database s.
Proof.
  destruct (initialize_database_tables s) as (Hm & Hb & Hs & Hseq).
  unfold initialize_database at 1.
  rewrite (insert_or_ignore_sale_present seed_sale).
  - rewrite !insert_or_ignore_union, Hm, Hb.
    rewrite <- !(assoc_L (∪) _ (list_to_map _)), !(idemp_L (∪)).
    rewrite <- Hm, <- Hb. by destruct (initialize_database s).
  - rewrite Hs. apply Forall_forall. intros [k r] Hin. cbn.
    destruct (sale s !! k) as [r'|] eqn:Hk.
    + exists r'. by apply lookup_union_Some_l.
    + exists r. rewrite lookup_union_r by done. by apply seed_sale_lookup.
Qed.

End Start.

(** ** What every call keeps *)

Section Keeps.

Variable py_int : string → option Z.

Implicit Types (w : world) (s : store).

Lemma update_book_stock_lookup q k s j b' :
  book (Sql.update_book_stock q k s) !! j = Some b' →
  ∃ b, book s !! j = Some b
       ∧ btitle b' = btitle b ∧ bprice b' = bprice b
       ∧ (b' = b ∨ (j = k ∧ bstock b' = bstock b - q)).
Proof.
  cbn. intros [(<- & b & Hb & ->)|[_ Hj]]%lookup_alter_Some.
  - exists b. cbn. split_and!; try done. by right.
  - exists b'. split_and!; try done. by left.
Qed.

Lemma ledger_ok_insert_sale s k b q d sid sdate' mid' m :
  ledger_ok s →
  member s !! mid' = Some m →
  book s !! k = Some b →
  0 < q ≤ bstock b →
  Sql.new_rowid s = Some sid →
  ledger_ok
    (Sql.update_book_stock q k
       (Store (member s) (book s)
          (<[sid := SaleRow sdate' mid' k q d (bprice b * q - d)]> (sale s))
          sid)).
Proof.
  intros [Hstock Hseq Hrefs Hqty Htot Hprices] Hm Hb Hq Hsid.
  apply new_rowid_fresh in Hsid as (Hfresh & Hup & _).
  split.
  - apply update_book_stock_nonneg with b; [done..|lia].
  - unfold seq_covers. cbn. apply map_Forall_insert_2; [done|].
    intros j r Hj. cbn. assert (j < sid); [|lia]. apply Hup. by exists r.
  - unfold refs_ok. cbn. apply map_Forall_insert_2.
    + cbn. rewrite Hm, lookup_alter_is_Some, Hb. by split.
    + intros j r Hj. cbn. rewrite lookup_alter_is_Some. by apply (Hrefs j).
  - unfold qty_pos. cbn. apply map_Forall_insert_2; [cbn; lia|done].
  - unfold totals_ok.
    assert (∀ r, (∀ b0, book s !! bid r = Some b0 →
                        stotal r = bprice b0 * sqty r - sdiscount r) →
                 ∀ b', book (Sql.update_book_stock q k
                               (Store (member s) (book s) (sale s) sid))
                       !! bid r = Some b' →
                       stotal r = bprice b' * sqty r - sdiscount r) as Hrow.
    { intros r Hr b' (b0 & Hb0 & _ & -> & _)%update_book_stock_lookup.
      by apply Hr. }
    cbn. apply map_Forall_insert_2.
    + apply Hrow. cbn. intros b0. rewrite Hb. by intros [= <-].
    + intros j r Hj. apply Hrow. by apply (Htot j).
  - intros j r b' Hin (b0 & Hb0 & _ & -> & _)%update_book_stock_lookup.
    by apply (Hprices j).
Qed.

Lemma ledger_ok_update_sale_discount s sid row b d :
  ledger_ok s →
  sale s !! sid = Some row →
  book s !! bid row = Some b →
  ledger_ok (Sql.update_sale_discount d (bprice b * sqty row - d) sid s).
Proof.
  intros [Hstock Hseq Hrefs Hqty Htot Hprices] Hrow Hb.
  unfold Sql.update_sale_discount.
  rewrite (alter_lookup_insert _ _ _ _ Hrow).
  split; try done.
  - unfold seq_covers. cbn. apply map_Forall_insert_2; [|done].
    by apply (Hseq sid row).
  - unfold refs_ok. cbn. apply map_Forall_insert_2; [|done].
    by apply (Hrefs sid row).
  - unfold qty_pos. cbn. apply map_Forall_insert_2; [|done].
    by apply (Hqty sid row).
  - unfold totals_ok. cbn. apply map_Forall_insert_2; [|done].
    cbn. intros b0. rewrite Hb. by intros [= <-].
Qed.

Lemma ledger_ok_delete_sale_row s sid :
  ledger_ok s → ledger_ok (Sql.delete_sale_row sid s).
Proof.
  intros [Hstock Hseq Hrefs Hqty Htot Hprices].
  split; try done; unfold seq_covers, refs_ok, qty_pos, totals_ok; cbn;
    by apply map_Forall_delete.
Qed.

Lemma ledger_ok_add_sale w r w' :
  ledger_ok (db w) → add_sale py_int w = (r, w') → ledger_ok (db w').
Proof.
  intros Hok Hrun.
  destruct (add_sale_cases _ _ _ _ Hrun) as [[-> _]|Hyes]; [done|].
  destruct Hyes as (l1 & l2 & l3 & rest & m & b & q & d & sid & _ & _ & _ & _
                    & Hm & Hb & Hq & Hsid & _ & ->).
  by eapply ledger_ok_insert_sale.
Qed.

Lemma ledger_ok_update_sale w r w' :
  ledger_ok (db w) → update_sale py_int w = (r, w') → ledger_ok (db w').
Proof.
  intros Hok Hrun.
  destruct (update_sale_cases _ _ _ _ Hrun) as [[-> _]|Hyes]; [done|].
  destruct Hyes as (x & row & b & d & _ & _ & Hrow & Hb & _ & ->).
  by apply ledger_ok_update_sale_discount.
Qed.

Lemma ledger_ok_delete_sale w r w' :
  ledger_ok (db w) → delete_sale py_int w = (r, w') → ledger_ok (db w').
Proof.
  intros Hok Hrun.
  destruct (delete_sale_cases _ _ _ _ Hrun) as [[-> _]|Hyes]; [done|].
  destruct Hyes as (x & _ & _ & _ & ->).
  by apply ledger_ok_delete_sale_row.
Qed.

Lemma seed_book_lookup k r :
  (k, r) ∈ seed_book →
  (list_to_map seed_book : gmap string book_row) !! k = Some r.
Proof.
  apply elem_of_list_to_map_1, (bool_decide_unpack _). by vm_compute.
Qed.

(** The seed rows fit together: stocks are not negative, every seed sale
    names a seed member and a seed book, has a positive quantity and the
    total that the seed price gives. *)
Lemma seed_rows_consistent :
  Forall (λ kb, 0 ≤ bstock kb.2) seed_book
  ∧ Forall (λ kr,
      is_Some ((list_to_map seed_member : gmap string member_row) !! mid kr.2)
      ∧ 0 < sqty kr.2
      ∧ (λ b, bprice b * sqty kr.2 - sdiscount kr.2)
          <$> (list_to_map seed_book : gmap string book_row) !! bid kr.2
        = Some (stotal kr.2))
      seed_sale.
Proof. split; apply (bool_decide_unpack _); by vm_compute. Qed.

Lemma ledger_ok_initialize_database s :
  ledger_ok s → ledger_ok (initialize_database s).
Proof.
  intros [Hstock Hseq Hrefs Hqty Htot Hprices].
  destruct (initialize_database_tables s) as (Hm & Hb & Hs & Hq).
  destruct seed_rows_consistent as [Hsb Hss].
  rewrite Forall_forall in Hsb. rewrite Forall_forall in Hss.
  assert (∀ k r, sale (initialize_database s) !! k = Some r →
            sale s !! k = Some r ∨ (k, r) ∈ seed_sale) as Hfrom.
  { intros k r. rewrite Hs. intros [?|[_ ?%elem_of_list_to_map_2]]%lookup_union_Some_raw; auto. }
  assert (∀ k b, book (initialize_database s) !! k = Some b →
            book s !! k = Some b
            ∨ (book s !! k = None ∧ (k, b) ∈ seed_book)) as Hbook.
  { intros k b. rewrite Hb. intros [?|[? ?%elem_of_list_to_map_2]]%lookup_union_Some_raw; auto. }
  split.
  - intros k b [?|[_ Hin]]%Hbook; [by eapply Hstock|]. apply (Hsb _ Hin).
  - unfold seq_covers. rewrite Hq.
    pose proof (insert_or_ignore_sale_union seed_sale (sale s) (sale_seq s))
      as (Heq & _ & Hcov).
    rewrite Hs, <- Heq. by apply Hcov.
  - intros k r [Hr|Hin]%Hfrom.
    + destruct (Hrefs k r Hr) as [[m Hmr] [b Hbr]]. rewrite Hm, Hb.
      split; eexists; by apply lookup_union_Some_l.
    + destruct (Hss _ Hin) as ([m Hmr] & _ & Hbr). cbn [fst snd] in *.
      rewrite Hm, Hb, !lookup_union. split.
      * rewrite Hmr. by destruct (member s !! mid r).
      * destruct (list_to_map seed_book !! bid r); [|done].
        by destruct (book s !! bid r).
  - intros k r [Hr|Hin]%Hfrom; [by apply (Hqty k r)|]. apply (Hss _ Hin).
  - intros k r [Hr|Hin]%Hfrom b Hbr.
    + destruct (Hrefs k r Hr) as [_ [b0 Hb0]].
      apply (Htot k r Hr). rewrite Hb, (lookup_union_Some_l _ _ _ _ Hb0) in Hbr.
      by rewrite Hb0, Hbr.
    + destruct (Hss _ Hin) as (_ & _ & Hbr'). cbn [snd] in Hbr'.
      destruct (list_to_map seed_book !! bid r) as [b0|] eqn:Hb0; [|done].
      apply elem_of_list_to_map_2 in Hb0 as Hb0in.
      injection Hbr' as <-.
      apply Hbook in Hbr as [Hbs|[_ Hbin]].
      * by rewrite (Hprices _ _ _ Hb0in Hbs).
      * apply seed_book_lookup in Hbin. rewrite Hb0 in Hbin. by injection Hbin as ->.
  - intros k r b Hin [Hbs|[_ Hbin]]%Hbook; [by eapply Hprices|].
    apply seed_book_lookup in Hin, Hbin. rewrite Hin in Hbin.
    by injection Hbin as ->.
Qed.

Lemma ledger_ok_empty : ledger_ok empty_db.
Proof.
  split; try apply map_Forall_empty. intros k r b _ Hb. cbn in Hb.
  by rewrite lookup_empty in Hb.
Qed.

Lemma ledger_ok_step s s' : ledger_ok s → step py_int s s' → ledger_ok s'.
Proof.
  intros Hok [w r w' <- Hrun|w r w' <- Hrun|w r w' <- Hrun|w r w' <- Hrun|].
  - by eapply ledger_ok_add_sale.
  - rewrite show_report_run in Hrun. by injection Hrun as <- <-.
  - by eapply ledger_ok_update_sale.
  - by eapply ledger_ok_delete_sale.
  - by apply ledger_ok_initialize_database.
Qed.

Lemma ledger_ok_rtc s s' : ledger_ok s → rtc (step py_int) s s' → ledger_ok s'.
Proof. intros Hok Hsteps. induction Hsteps; eauto using ledger_ok_step. Qed.

(** X16.  Every database file that the program can produce from an empty
    one is consistent: no stock is negative, no [sid] is above the recorded
    sequence value, every sale names a member and a book that exist, has a
    positive quantity, and carries the total that the present price of its
    book gives. *)
Theorem reachable_ledger_ok s :
  reachable py_int s →
  stock_nonneg s ∧ seq_covers s ∧ refs_ok s ∧ qty_pos s ∧ totals_ok s.
Proof.
  intros Hs. destruct (ledger_ok_rtc _ _ ledger_ok_empty Hs). by split_and!.
Qed.

End Keeps.

(** ** How a call can end *)

Section Outcomes.

Variable py_int : string → option Z.

Implicit Types (w : world) (s : store).

Ltac unfold_calls H :=
  unfold mbind, M_bind, fmap, M_fmap, mret, M_ret, input, print, connect,
    commit, raise, input_int in H; cbn -[input_int_loop] in H.

Lemma input_int_loop_outcome po az lines out r rest out' :
  input_int_loop py_int po az lines out = (r, rest, out') →
  (length rest ≤ length lines)%nat ∧ ∀ e, r = Raise e → e = EOFError.
Proof.
  revert out. induction lines as [|l lines IH]; intros out; cbn.
  { intros [= <- <- <-]. split; [done|]. by intros e [= <-]. }
  assert (∀ m, input_int_loop py_int po az lines m = (r, rest, out') →
               (length rest ≤ S (length lines))%nat
               ∧ ∀ e, r = Raise e → e = EOFError) as Hnext.
  { intros m [? ?]%IH. split; [lia|done]. }
  destruct (py_int l) as [v|]; [|by apply Hnext].
  destruct (po && (v <=? 0)); [by apply Hnext|].
  destruct (negb az && (v <? 0)); [by apply Hnext|].
  intros [= <- <- <-]. split; [lia|done].
Qed.

Ltac ends :=
  simplify_eq/=; split; [lia|intros ? ?; simplify_eq; auto].

Lemma add_sale_outcome w r w' :
  add_sale py_int w = (r, w') →
  (length (stdin w') ≤ length (stdin w))%nat
  ∧ ∀ e, r = Raise e → e = EOFError ∨ e = OverflowError.
Proof.
  destruct w as [s [|l1 ins] out]; unfold add_sale; intros Hrun;
    unfold_calls Hrun; [ends|].
  destruct (negb _ || negb _); [ends|].
  destruct ins as [|l2 [|l3 rest]]; cbn -[input_int_loop] in Hrun;
    [ends..|].
  destruct (member s !! Py.strip l2) as [m|];
    [destruct (book s !! Py.strip l3) as [b|]|]; [|ends..].
  cbn -[input_int_loop] in Hrun.
  destruct (input_int_loop py_int true false rest out)
    as [[[q|e0] rest1] out1] eqn:Hq;
    apply input_int_loop_outcome in Hq as [Hlen1 Hexn1];
    cbn -[input_int_loop] in Hrun.
  2: { specialize (Hexn1 e0 eq_refl). ends. }
  destruct (bstock b <? q); cbn -[input_int_loop] in Hrun; [ends|].
  destruct (input_int_loop py_int false true rest1 out1)
    as [[[d|e0] rest2] out2] eqn:Hd;
    apply input_int_loop_outcome in Hd as [Hlen2 Hexn2];
    cbn in Hrun.
  2: { specialize (Hexn2 e0 eq_refl). ends. }
  destruct (Py.fits_int64 q && _); cbn in Hrun; [|ends].
  destruct (Sql.insert_sale _ s) as [[sid s1]|]; cbn in Hrun; ends.
Qed.

Lemma delete_sale_outcome w r w' :
  delete_sale py_int w = (r, w') →
  (length (stdin w') ≤ length (stdin w))%nat
  ∧ ∀ e, r = Raise e → e = EOFError.
Proof.
  destruct w as [s ins out]. unfold delete_sale. intros Hrun.
  rewrite bind_run, list_sales_run, bind_run, print_sales_run in Hrun.
  cbn [db stdin stdout] in Hrun.
  remember (Sql.select_sales s) as sales eqn:Hsales.
  remember (ListFooter :: _) as out0 eqn:Hout0. clear Hout0.
  unfold_calls Hrun.
  destruct ins as [|choice ins]; cbn in Hrun; [ends|].
  case_bool_decide; cbn in Hrun; [ends|].
  destruct (py_int choice) as [n|]; cbn in Hrun;
    [|ends].
  destruct ((n - 1 <? 0) || _) eqn:Hrange; cbn in Hrun;
    [ends|].
  destruct (sales !! Z.to_nat (n - 1)) as [x|] eqn:Hx; cbn in Hrun;
    [ends|].
  apply lookup_ge_None in Hx. lia.
Qed.

Lemma update_sale_outcome w r w' :
  update_sale py_int w = (r, w') →
  (length (stdin w') ≤ length (stdin w))%nat
  ∧ ∀ e, r = Raise e →
         e = EOFError ∨ e = OverflowError ∨ (e = TypeError ∧ ¬ refs_ok (db w)).
Proof.
  destruct w as [s ins out]. unfold update_sale. intros Hrun.
  rewrite bind_run, list_sales_run, bind_run, print_sales_run in Hrun.
  cbn [db stdin stdout] in Hrun.
  remember (Sql.select_sales s) as sales eqn:Hsales.
  remember (ListFooter :: _) as out0 eqn:Hout0. clear Hout0.
  unfold_calls Hrun.
  destruct ins as [|choice ins]; cbn -[input_int_loop] in Hrun;
    [ends|].
  case_bool_decide; cbn -[input_int_loop] in Hrun;
    [ends|].
  destruct (py_int choice) as [n|]; cbn -[input_int_loop] in Hrun;
    [|ends].
  destruct ((n - 1 <? 0) || _) eqn:Hrange; cbn -[input_int_loop] in Hrun;
    [ends|].
  destruct (sales !! Z.to_nat (n - 1)) as [x|] eqn:Hx;
    cbn -[input_int_loop] in Hrun;
    [|apply lookup_ge_None in Hx; lia].
  apply list_elem_of_lookup_2 in Hx. subst sales.
  apply elem_of_select_sales in Hx as (row & m & Hrow & _ & _).
  destruct (input_int_loop py_int false true ins out0)
    as [[[d|e0] rest] out1] eqn:Hloop;
    apply input_int_loop_outcome in Hloop as [Hlen Hexn];
    cbn in Hrun.
  2: { simplify_eq/=. split; [lia|]. intros e [= <-]. left. by apply Hexn. }
  rewrite Hrow in Hrun. cbn in Hrun.
  destruct (book s !! bid row) as [b|] eqn:Hb; cbn in Hrun.
  - destruct (Py.fits_int64 d && _); cbn in Hrun; simplify_eq/=;
      (split; [lia|]); [done|]. intros e [= <-]. auto.
  - simplify_eq/=. split; [lia|]. intros e [= <-]. right. right.
    split; [done|]. intros Hrefs. destruct (Hrefs _ _ Hrow) as [_ [b Hb']].
    cbn in Hb'. by rewrite Hb in Hb'.
Qed.

(** X17.  A call that ends with an exception ends with [EOFError] (the input
    is over) or, for [add_sale] and [update_sale], with [OverflowError] (an
    integer outside the range of the database); [update_sale] can end with
    [TypeError] only on a file where some sale names a missing member or
    book; [IndexError] never occurs and [show_report] raises nothing. *)
Theorem exceptions_of_calls w e w' :
  (add_sale py_int w = (Raise e, w') → e = EOFError ∨ e = OverflowError)
  ∧ (update_sale py_int w = (Raise e, w') →
     e = EOFError ∨ e = OverflowError ∨ (e = TypeError ∧ ¬ refs_ok (db w)))
  ∧ (delete_sale py_int w = (Raise e, w') → e = EOFError)
  ∧ show_report w ≠ (Raise e, w').
Proof.
  split_and!.
  - intros [_ Hexn]%add_sale_outcome. by apply Hexn.
  - intros [_ Hexn]%update_sale_outcome. by apply Hexn.
  - intros [_ Hexn]%delete_sale_outcome. by apply Hexn.
  - by rewrite show_report_run.
Qed.

End Outcomes.

(** ** Files the program can produce *)

Section Reachable.

Variable py_int : string → option Z.

Implicit Types (w : world) (s : store).

Lemma length_omap_total {A B} (f : A → option B) (l : list A) :
  Forall (λ x, is_Some (f x)) l → length (omap f l) = length l.
Proof.
  induction 1 as [|x l [y Hy] _ IH]; cbn; [done|]. rewrite Hy. cbn. by f_equal.
Qed.

Lemma refs_ok_lists_all s :
  refs_ok s →
  length (Sql.select_sales s) = size (sale s)
  ∧ length (Sql.select_report s) = size (sale s).
Proof.
  intros Hrefs. unfold Sql.select_sales, Sql.select_report.
  rewrite !order_by_perm, <- length_map_to_list.
  split; apply length_omap_total, Forall_forall;
    intros [k r] Hkr%elem_of_map_to_list; cbn;
    destruct (Hrefs k r Hkr) as [[m ->] [b Hb]]; cbn in *;
    rewrite ?Hb; by eexists.
Qed.

(** X18.  On every file the program can produce from an empty one the
    inner joins leave nothing out: [list_sales] and the report have one row
    for each sale of the table. *)
Theorem reachable_lists_every_sale s :
  reachable py_int s →
  length (Sql.select_sales s) = size (sale s)
  ∧ length (Sql.select_report s) = size (sale s)
  ∧ ∀ sid, is_Some (sale s !! sid) ↔ sid ∈ (l_sid <$> Sql.select_sales s).
Proof.
  intros Hs.
  destruct (ledger_ok_rtc py_int _ _ ledger_ok_empty Hs) as [_ _ Hrefs _ _ _].
  destruct (refs_ok_lists_all s) as [Hl Hr]; [done|].
  split_and!; [done..|]. intros sid. rewrite list_elem_of_fmap. split.
  - intros [r Hr']. destruct (Hrefs sid r Hr') as [[m Hm] _].
    exists (Listing sid (mname m) (sdate r)). split; [done|].
    apply elem_of_select_sales. by exists r, m.
  - intros (x & -> & (r & _ & Hr' & _)%elem_of_select_sales). by exists r.
Qed.

(** X19.  On every file the program can produce from an empty one, each
    block of the report shows a positive quantity and a total equal to the
    unit price shown, multiplied by the quantity, minus the discount. *)
Theorem reachable_report_totals s x :
  reachable py_int s →
  x ∈ Sql.select_report s →
  0 < r_sqty x ∧ r_stotal x = r_bprice x * r_sqty x - r_sdiscount x.
Proof.
  intros Hs (r & m & b & Hr & Hm & Hb & ->)%elem_of_select_report.
  destruct (ledger_ok_rtc py_int _ _ ledger_ok_empty Hs)
    as [_ _ _ Hqty Htot _].
  cbn. split; [by apply (Hqty _ _ Hr)|by apply (Htot _ _ Hr)].
Qed.

Lemma kept_refl s : kept s s.
Proof.
  split_and!; [done| |done]. intros k b Hb. exists b. by split_and!.
Qed.

Lemma kept_trans s1 s2 s3 : kept s1 s2 → kept s2 s3 → kept s1 s3.
Proof.
  intros (Hm1 & Hb1 & Hq1) (Hm2 & Hb2 & Hq2). split_and!.
  - by trans (member s2).
  - intros k b (b' & Hb' & Ht & Hp & Hst)%Hb1.
    apply Hb2 in Hb' as (b'' & Hb'' & Ht' & Hp' & Hst').
    exists b''. split; [done|]. split_and!; [congruence..|lia].
  - lia.
Qed.

Lemma kept_step s s' : step py_int s s' → kept s s'.
Proof.
  intros [w r w' <- Hrun|w r w' <- Hrun|w r w' <- Hrun|w r w' <- Hrun|].
  - destruct (add_sale_cases _ _ _ _ Hrun) as [[-> _]|Hyes];
      [apply kept_refl|].
    destruct Hyes as (l1 & l2 & l3 & rest & m & b & q & d & sid & _ & _ & _
                      & _ & _ & Hb & Hq & Hsid & _ & ->).
    apply new_rowid_fresh in Hsid as (_ & _ & Hseq).
    split_and!; cbn; [done| |lia].
    intros k b0 Hb0. rewrite lookup_alter. case_decide as Hk.
    + subst k. rewrite Hb0. eexists. split; [done|].
      split_and!; cbn; [done..|lia].
    + exists b0. by split_and!.
  - rewrite show_report_run in Hrun. injection Hrun as <- <-.
    apply kept_refl.
  - destruct (update_sale_cases _ _ _ _ Hrun) as [[-> _]|Hyes];
      [apply kept_refl|].
    destruct Hyes as (x & row & b & d & _ & _ & _ & _ & _ & ->).
    apply (kept_refl (db w)).
  - destruct (delete_sale_cases _ _ _ _ Hrun) as [[-> _]|Hyes];
      [apply kept_refl|].
    destruct Hyes as (x & _ & _ & _ & ->). apply (kept_refl (db w)).
  - destruct (initialize_database_tables s) as (Hm & Hb & _ & Hq).
    split_and!.
    + rewrite Hm. apply map_union_subseteq_l.
    + intros k b Hkb. exists b. rewrite Hb.
      split; [by apply lookup_union_Some_l|]. by split_and!.
    + rewrite Hq. apply insert_or_ignore_sale_union.
Qed.

Lemma kept_rtc s s' : rtc (step py_int) s s' → kept s s'.
Proof.
  induction 1 as [|s1 s2 s3 Hstep _ IH]; [apply kept_refl|].
  eapply kept_trans; [by apply kept_step|done].
Qed.

(** X20.  Whatever is done with the program, calls and new starts in any
    order, a member row stays as it is, a book row keeps its title and its
    price, its stock never rises, and the sequence value of the sale table
    never goes down. *)
Theorem steps_keep_members_and_books s s' :
  rtc (step py_int) s s' →
  (∀ k m, member s !! k = Some m → member s' !! k = Some m)
  ∧ (∀ k b, book s !! k = Some b →
       ∃ b', book s' !! k = Some b'
             ∧ btitle b' = btitle b ∧ bprice b' = bprice b
             ∧ bstock b' ≤ bstock b)
  ∧ sale_seq s ≤ sale_seq s'.
Proof.
  intros (Hm & Hb & Hq)%kept_rtc. split_and!; [|done..].
  intros k m Hk. by eapply lookup_weaken.
Qed.

End Reachable.

(** ** The menu loop *)

Section Menu.

Variable py_int : string → option Z.

Implicit Types (w : world) (s : store) (ss : session).

Lemma call_run f ss r ss' :
  call f ss = (r, ss') →
  ∃ w', f (World (disk ss) (pending ss) []) = (r, w')
        ∧ disk ss' = db w' ∧ pending ss' = stdin w'
        ∧ screen ss' = (Printed <$> stdout w') ++ screen ss.
Proof.
  unfold call. destruct (f _) as [r0 w']. intros [= <- <-]. by exists w'.
Qed.

Lemma callee_add_sale : callee py_int (add_sale py_int).
Proof.
  intros w r w' Hrun. destruct (add_sale_outcome _ _ _ _ Hrun) as [? ?].
  split_and!; [by eapply step_add_sale|done|auto].
Qed.

Lemma callee_show_report : callee py_int show_report.
Proof.
  intros w r w' Hrun. split_and!; [by eapply step_show_report| |].
  - rewrite show_report_run in Hrun. by injection Hrun as <- <-.
  - rewrite show_report_run in Hrun. injection Hrun as <- <-. by intros _ e.
Qed.

Lemma callee_update_sale : callee py_int (update_sale py_int).
Proof.
  intros w r w' Hrun. destruct (update_sale_outcome _ _ _ _ Hrun) as [? Hexn].
  split_and!; [by eapply step_update_sale|done|].
  intros [_ _ Hrefs _ _ _] e He.
  destruct (Hexn e He) as [?|[?|[_ ?]]]; auto. done.
Qed.

Lemma callee_delete_sale : callee py_int (delete_sale py_int).
Proof.
  intros w r w' Hrun. destruct (delete_sale_outcome _ _ _ _ Hrun) as [? ?].
  split_and!; [by eapply step_delete_sale|done|auto].
Qed.

Lemma main_loop_enough fuel ss :
  (length (pending ss) < fuel)%nat → is_Some (main_loop py_int fuel ss).
Proof.
  revert ss. induction fuel as [|fuel IH]; intros [s ins scr] Hfuel; [cbn in *; lia|].
  cbn [main_loop pending disk screen].
  destruct ins as [|l rest]; [done|]. cbn in Hfuel.
  assert (∀ f, callee py_int f →
            is_Some (match call f (Session s rest (MenuBanner :: scr)) with
                     | (Ok _, ss') => main_loop py_int fuel ss'
                     | (Raise e, ss') => Some (Uncaught e, ss')
                     end)) as Hrun.
  { intros f Hf. destruct (call f _) as [[u|e] ss'] eqn:Hcall; [|done].
    apply call_run in Hcall as (w' & Hw & _ & Hp & _).
    apply Hf in Hw as (_ & Hlen & _). cbn in Hlen.
    apply IH. rewrite Hp. lia. }
  repeat case_bool_decide;
    eauto using callee_add_sale, callee_show_report, callee_update_sale,
      callee_delete_sale;
    apply IH; cbn; lia.
Qed.

Lemma main_loop_more_fuel fuel fuel' ss res :
  main_loop py_int fuel ss = Some res → (fuel ≤ fuel')%nat →
  main_loop py_int fuel' ss = Some res.
Proof.
  revert fuel' ss. induction fuel as [|fuel IH]; intros fuel' ss; [done|].
  intros Hrun Hle. destruct fuel' as [|fuel']; [lia|].
  assert (fuel ≤ fuel')%nat as Hle' by lia.
  cbn [main_loop] in *. destruct (pending ss) as [|l rest]; [done|].
  repeat case_bool_decide; try done; try (by apply IH);
    destruct (call _ _) as [[u|e] ss']; try done; by apply IH.
Qed.

(** X21.  [main] ends on every input: the loop takes at most one turn for
    each line and one more, and a larger bound on the turns gives the same
    end. *)
Theorem main_terminates file lines :
  ∃ e ss,
    main py_int file lines = Some (e, ss)
    ∧ ∀ fuel, (length lines < fuel)%nat →
        main_loop py_int fuel (Session (initialize_database file) lines [])
        = Some (e, ss).
Proof.
  unfold main.
  destruct (main_loop_enough (S (length lines))
              (Session (initialize_database file) lines []))
    as [[e ss] Hrun]; [cbn; lia|].
  exists e, ss. split; [done|]. intros fuel Hfuel.
  apply (main_loop_more_fuel _ _ _ _ Hrun). lia.
Qed.




Lemma main_loop_idle pre :
  Forall idle pre →
  ∀ n s rest scr,
    ∃ shown,
      main_loop py_int (length pre + n) (Session s (pre ++ rest) scr)
      = main_loop py_int n (Session s rest (shown ++ scr)).
Proof.
  induction 1 as [|l pre Hl _ IH]; intros n s rest scr; [by exists []|].
  cbn [length Nat.add app main_loop pending disk screen].
  unfold idle in Hl.
  case_bool_decide as Hblank.
  - destruct (IH n s rest (MenuBanner :: scr)) as [shown ->].
    exists (shown ++ [MenuBanner]). by rewrite <- app_assoc.
  - rewrite !bool_decide_false
      by (intros E; apply Hl; rewrite E; repeat constructor).
    destruct (IH n s rest (InvalidOption :: MenuBanner :: scr)) as [shown ->].
    exists (shown ++ [InvalidOption; MenuBanner]). by rewrite <- app_assoc.
Qed.

(** X24.  Blank lines and lines that are none of 1 to 5 only bring the menu
    back: after any number of them the database file is still the one the
    start made, and the program ends with [EOFError] if the input stops
    there, or leaves at a line that reads 5, the lines after it unread. *)
Theorem idle_lines_change_nothing file pre :
  Forall idle pre →
  (∃ shown,
     main py_int file pre
     = Some (Uncaught EOFError,
             Session (initialize_database file) [] shown))
  ∧ ∀ l rest,
      Py.strip l = "5"%string →
      ∃ shown,
        main py_int file (pre ++ l :: rest)
        = Some (SystemExit,
                Session (initialize_database file) rest (Leaving :: shown)).
Proof.
  intros Hpre. unfold main. split.
  - destruct (main_loop_idle pre Hpre 1 (initialize_database file) [] [])
      as [shown Hrun].
    rewrite app_nil_r in Hrun.
    replace (S (length pre)) with (length pre + 1)%nat by lia.
    rewrite Hrun. by eexists.
  - intros l rest Hl.
    destruct (main_loop_idle pre Hpre (S (S (length rest)))
                (initialize_database file) (l :: rest) []) as [shown Hrun].
    replace (S (length (pre ++ l :: rest)))
      with (length pre + S (S (length rest)))%nat
      by (rewrite length_app; cbn; lia).
    rewrite Hrun. cbn [main_loop pending disk screen]. rewrite Hl.
    by eexists.
Qed.

End Menu.

(** ** Round trips *)

Section RoundTrips.

Variable py_int : string → option Z.

Implicit Types (w : world) (s : store).

Lemma last_of_sorted {A} (key : A → Z) (l : list A) x :
  StronglySorted Z.lt (key <$> l) →
  x ∈ l → (∀ y, y ∈ l → key y ≤ key x) →
  last l = Some x.
Proof.
  induction l as [|a [|b l] IH]; intros Hsorted Hx Hmax.
  - by apply elem_of_nil in Hx.
  - by apply list_elem_of_singleton in Hx as ->.
  - apply elem_of_cons in Hx as [->|Hx].
    + apply StronglySorted_inv in Hsorted as [_ Hall].
      apply Forall_cons in Hall as [Hab _].
      specialize (Hmax b ltac:(by apply list_elem_of_further, list_elem_of_here)).
      lia.
    + apply StronglySorted_inv in Hsorted as [Hsorted _].
      change (last (a :: b :: l)) with (last (b :: l)).
      apply IH; [done..|]. intros y Hy. apply Hmax. by apply list_elem_of_further.
Qed.

(** X25.  After a successful [add_sale] the new sale is the last row of the
    listing of [list_sales] and the last block of the report, under the
    [sid] just given, with the total that was printed. *)
Theorem add_sale_listed_last w w' t :
  add_sale py_int w = (Ok tt, w') →
  head (stdout w') = Some (SaleAdded t) →
  ∃ x y,
    last (Sql.select_sales (db w')) = Some x
    ∧ l_sid x = sale_seq (db w')
    ∧ last (Sql.select_report (db w')) = Some y
    ∧ r_sid y = sale_seq (db w')
    ∧ r_stotal y = t
    ∧ sale_seq (db w) < sale_seq (db w').
Proof.
  intros Hrun Hout.
  destruct (add_sale_cases _ _ _ _ Hrun) as [[_ Hno]|Hyes].
  { by destruct (Hno eq_refl t). }
  destruct Hyes as (l1 & l2 & l3 & rest & m & b & q & d & sid & _ & _ & _ & _
                    & Hm & Hb & Hq & Hsid & Hhd & Hdb).
  rewrite Hout in Hhd. injection Hhd as ->.
  apply new_rowid_fresh in Hsid as (Hfresh & Hup & Hseq).
  set (row := SaleRow (Py.strip l1) (Py.strip l2) (Py.strip l3) q d
                (bprice b * q - d)) in *.
  set (b' := BookRow (btitle b) (bprice b) (bstock b - q)).
  assert (sale (db w') !! sid = Some row) as Hrow
    by (rewrite Hdb; cbn; apply lookup_insert_eq).
  assert (member (db w') !! mid row = Some m) as Hm' by (by rewrite Hdb).
  assert (book (db w') !! bid row = Some b') as Hb'
    by (rewrite Hdb; cbn; by rewrite lookup_alter_eq, Hb).
  assert (sale_seq (db w') = sid) as Hseq' by (by rewrite Hdb).
  assert (∀ k r, sale (db w') !! k = Some r → k ≤ sid) as Hle.
  { intros k r. rewrite Hdb. cbn. rewrite lookup_insert. case_decide; [lia|].
    intros Hk. assert (k < sid); [|lia]. apply Hup. by exists r. }
  assert (StronglySorted Z.lt (l_sid <$> Sql.select_sales (db w'))) as Hsales.
  { apply order_by_keys_strict. intros [k r] z. cbn.
    destruct (member (db w') !! mid r); [|done]. by intros [= <-]. }
  assert (StronglySorted Z.lt (r_sid <$> Sql.select_report (db w')))
    as Hreport.
  { apply order_by_keys_strict. intros [k r] z. cbn.
    destruct (member (db w') !! mid r); [|done]. cbn.
    destruct (book (db w') !! bid r); [|done]. by intros [= <-]. }
  exists (Listing sid (mname m) (sdate row)),
         (LineItem sid (sdate row) (mname m) (btitle b') (bprice b')
                   (sqty row) (sdiscount row) (stotal row)).
  rewrite Hseq'. split_and!; try done; try (cbn; lia).
  - apply (last_of_sorted l_sid); [done| |].
    + apply elem_of_select_sales. by exists row, m.
    + intros z (r & _ & Hr & _)%elem_of_select_sales. cbn. by eapply Hle.
  - apply (last_of_sorted r_sid); [done| |].
    + apply elem_of_select_report. by exists row, m, b'.
    + intros z (r & _ & _ & Hr & _)%elem_of_select_report. cbn. by eapply Hle.
Qed.

(** X26.  On a file the program can produce from an empty one, choosing a
    sale in [update_sale] and giving the discount it already has leaves the
    file exactly as it was. *)
Theorem update_with_same_discount s choice n x ld row rest out :
  reachable py_int s →
  choice ≠ EmptyString →
  py_int choice = Some n →
  1 ≤ n →
  Sql.select_sales s !! Z.to_nat (n - 1) = Some x →
  sale s !! l_sid x = Some row →
  py_int ld = Some (sdiscount row) →
  forallb Py.fits_int64 [sdiscount row; stotal row] = true →
  update_sale py_int (World s (choice :: ld :: rest) out)
  = (Ok tt,
     World s rest
       (SaleUpdated (l_sid x) (stotal row)
        :: sale_listing (Sql.select_sales s) ++ out)).
Proof.
  intros Hs Hne Hn Hlow Hx Hrow Hd Hfits.
  destruct (ledger_ok_rtc py_int _ _ ledger_ok_empty Hs)
    as [_ _ Hrefs _ Htot _].
  destruct (Hrefs _ _ Hrow) as [_ [b Hb]].
  pose proof (Htot _ _ Hrow b Hb) as Htotal.
  unfold update_sale.
  rewrite bind_run, list_sales_run, bind_run, print_sales_listing.
  cbn [db stdin stdout].
  unfold mbind, M_bind, fmap, M_fmap, mret, M_ret, input, print, connect,
    commit, raise, input_int.
  cbn -[forallb input_int_loop].
  rewrite bool_decide_false by done. rewrite Hn.
  apply lookup_lt_Some in Hx as Hlen.
  replace (n - 1 <? 0) with false by lia.
  replace (_ <=? n - 1) with false by lia. cbn -[forallb input_int_loop].
  rewrite Hx. cbn -[forallb input_int_loop].
  rewrite (input_int_loop_takes py_int false true ld _ _ _ Hd eq_refl).
  cbn -[forallb]. rewrite Hrow. cbn -[forallb]. rewrite Hb.
  cbn -[forallb]. rewrite <- Htotal, Hfits. cbn.
  unfold Sql.update_sale_discount.
  rewrite (alter_lookup_insert _ _ _ _ Hrow), insert_id;
    [by destruct s|].
  rewrite Hrow. by destruct row.
Qed.

End RoundTrips.

(** ** More sample sessions *)

Section Tours.

Import Sample Tour.

(** Three refused lines, then 7. *)
Lemma input_int_first_accepted_witness :
  Forall (refused Decimal.read true false) ["abc"; "0"; "-3"]%string
  ∧ Decimal.read "7" = Some 7
  ∧ int_accepted true false 7 = true
  ∧ ∃ errs,
      length errs = 3%nat
      ∧ input_int Decimal.read true false
          (World initial_db ["abc"; "0"; "-3"; "7"; "8"]%string [])
        = (Ok 7, World initial_db ["8"%string] (errs ++ [])).
Proof.
  assert (Forall (refused Decimal.read true false) ["abc"; "0"; "-3"]%string)
    as Hpre by (repeat (constructor; [by vm_compute|]); constructor).
  split_and!; [exact Hpre|reflexivity|reflexivity|].
  exact (input_int_first_accepted Decimal.read true false initial_db
           ["abc"; "0"; "-3"]%string "7" 7 ["8"%string] []
           Hpre eq_refl eq_refl).
Defined.

(** Two refused lines and nothing after them. *)
Lemma input_int_end_of_input_witness :
  Forall (refused Decimal.read false false) ["abc"; "-1"]%string
  ∧ ∃ errs,
      length errs = 2%nat
      ∧ input_int Decimal.read false false
          (World initial_db ["abc"; "-1"]%string [])
        = (Raise EOFError, World initial_db [] (errs ++ [])).
Proof.
  assert (Forall (refused Decimal.read false false) ["abc"; "-1"]%string)
    as Hpre by (repeat (constructor; [by vm_compute|]); constructor).
  split; [exact Hpre|].
  exact (input_int_end_of_input Decimal.read false false initial_db
           ["abc"; "-1"]%string [] Hpre).
Defined.


(** The sale with the negative discount. *)
Lemma add_sale_succeeds_witness :
  add_sale Decimal.read (World initial_db (gift_lines ++ ["next"%string]) [])
  = (Ok tt, World after_gift ["next"%string] [SaleAdded 4850]).
Proof.
  apply (add_sale_succeeds Decimal.read initial_db
           "2024-05-01" "M002" "B003" "4" "-50" ["next"%string] []
           (MemberRow "Bob" "0923-456789" (Some "bob@example.com"%string))
           (BookRow "Machine Learning Guide" 1200 20) 4 (-50) 5);
    try reflexivity.
  cbn. lia.
Defined.

(** Choice 9 when four sales are listed. *)
Lemma invalid_choice_rejected_witness :
  let shown := InvalidNumber :: listing_printed in
  "9"%string ≠ EmptyString
  ∧ Decimal.read "9" = Some 9
  ∧ Z.of_nat (length (Sql.select_sales initial_db)) < 9
  ∧ update_sale Decimal.read (World initial_db ["9"; "0"]%string [])
    = (Ok tt, World initial_db ["0"%string] shown)
  ∧ delete_sale Decimal.read (World initial_db ["9"; "0"]%string [])
    = (Ok tt, World initial_db ["0"%string] shown).
Proof.
  intros shown.
  assert ("9"%string ≠ EmptyString) as Hne by discriminate.
  assert (Z.of_nat (length (Sql.select_sales initial_db)) < 9) as Hlen
    by (vm_compute; reflexivity).
  split_and!; [exact Hne|reflexivity|exact Hlen|..];
    apply (invalid_choice_rejected Decimal.read initial_db "9"
             ["0"%string] [] Hne
             (or_intror (ex_intro _ 9 (conj eq_refl (or_intror Hlen))))).
Defined.

(** Choice 2 deletes the second listed sale, which is sale 2. *)
Lemma delete_sale_takes_nth_witness :
  Sql.select_sales initial_db !! Z.to_nat (2 - 1)
  = Some (Listing 2 "Bob" "2024-01-16")
  ∧ delete_sale Decimal.read (World initial_db ["2"; "x"]%string [])
    = (Ok tt,
       World (Sql.delete_sale_row 2 initial_db) ["x"%string]
         (SaleDeleted 2 :: sale_listing (Sql.select_sales initial_db) ++ [])).
Proof.
  assert (Sql.select_sales initial_db !! Z.to_nat (2 - 1)
          = Some (Listing 2 "Bob" "2024-01-16")) as Hx
    by (vm_compute; reflexivity).
  split; [exact Hx|].
  apply (delete_sale_takes_nth Decimal.read initial_db "2" 2
           (Listing 2 "Bob" "2024-01-16") ["x"%string] []);
    [discriminate|reflexivity|lia|exact Hx].
Defined.

(** Choice 1 with the discount 0: sale 1, two copies at 600. *)
Lemma update_sale_takes_nth_witness :
  update_sale Decimal.read (World initial_db ["1"; "0"; "x"]%string [])
  = (Ok tt,
     World (Store (member initial_db) (book initial_db)
              (<[1 := SaleRow "2024-01-15" "M001" "B001" 2 0 1200]>
                 (sale initial_db))
              4)
       ["x"%string]
       (SaleUpdated 1 1200 :: sale_listing (Sql.select_sales initial_db) ++ [])).
Proof.
  apply (update_sale_takes_nth Decimal.read initial_db "1" 1
           (Listing 1 "Alice" "2024-01-15") "0" 0
           (SaleRow "2024-01-15" "M001" "B001" 2 100 1100)
           (BookRow "Python Programming" 600 50) ["x"%string] []);
    [discriminate|reflexivity|lia|vm_compute; reflexivity..].
Defined.

(** Choice 5 on the file whose fifth listed sale names the book B999. *)
Lemma update_sale_book_missing_witness :
  book lost_book_db !! "B999"%string = None
  ∧ update_sale Decimal.read (World lost_book_db ["5"; "10"; "x"]%string [])
    = (Raise TypeError,
       World lost_book_db ["x"%string]
         (sale_listing (Sql.select_sales lost_book_db) ++ [])).
Proof.
  split; [vm_compute; reflexivity|].
  apply (update_sale_book_missing Decimal.read lost_book_db "5" 5
           (Listing 9 "Alice" "2024-06-01") "10" 10
           (SaleRow "2024-06-01" "M001" "B999" 1 0 600) ["x"%string] []);
    [discriminate|reflexivity|lia|vm_compute; reflexivity..].
Defined.

(** The input ends after the date. *)
Lemma exception_leaves_file_witness :
  let w := World initial_db ["2024-05-01"%string] [] in
  let w' := World initial_db [] [] in
  add_sale Decimal.read w = (Raise EOFError, w') ∧ db w' = db w.
Proof.
  intros w w'.
  assert (add_sale Decimal.read w = (Raise EOFError, w')) as Hrun
    by (vm_compute; reflexivity).
  split; [exact Hrun|].
  destruct (exception_leaves_file Decimal.read w EOFError w') as (Hadd & _).
  exact (Hadd Hrun).
Defined.

(** The sample sale is stored as sale 5 and deleted at once. *)
Lemma delete_does_not_undo_add_witness :
  let w := World initial_db undo_lines [] in
  let w1 := World after_sale ["5"%string] [SaleAdded 1100] in
  let w2 := World after_undo []
              (SaleDeleted 5
               :: sale_listing (Sql.select_sales after_sale)
               ++ [SaleAdded 1100]) in
  add_sale Decimal.read w = (Ok tt, w1)
  ∧ delete_sale Decimal.read w1 = (Ok tt, w2)
  ∧ sale (db w2) = sale (db w)
  ∧ book (db w2) = book (db w1)
  ∧ ∀ sid, Sql.new_rowid (db w2) = Some sid → sale_seq (db w1) < sid.
Proof.
  intros w w1 w2.
  assert (add_sale Decimal.read w = (Ok tt, w1)) as Hadd
    by (vm_compute; reflexivity).
  assert (delete_sale Decimal.read w1 = (Ok tt, w2)) as Hdel
    by (vm_compute; reflexivity).
  destruct (delete_does_not_undo_add Decimal.read w w1 w2 1100
              Hadd eq_refl Hdel eq_refl)
    as (Hsale & _ & Hbook & _ & _ & Hnext).
  split_and!; [exact Hadd|exact Hdel|exact Hsale|exact Hbook|exact Hnext].
Defined.

(** Sale 3 is deleted and the program is started again. *)
Lemma start_restores_seed_sale_witness :
  (3, SaleRow "2024-01-17" "M001" "B003" 3 200 3400) ∈ seed_sale
  ∧ sale (Sql.delete_sale_row 3 initial_db) !! 3 = None
  ∧ sale (initialize_database (Sql.delete_sale_row 3 initial_db)) !! 3
    = Some (SaleRow "2024-01-17" "M001" "B003" 3 200 3400).
Proof.
  assert ((3, SaleRow "2024-01-17" "M001" "B003" 3 200 3400) ∈ seed_sale)
    as Hin by (do 2 apply list_elem_of_further; apply list_elem_of_here).
  split_and!; [exact Hin|vm_compute; reflexivity|].
  exact (start_restores_seed_sale initial_db 3 _ Hin).
Defined.

Lemma reachable_initial_db : reachable Decimal.read initial_db.
Proof. apply rtc_once, step_start. Defined.

(** The seeded file. *)
Lemma reachable_ledger_ok_witness :
  reachable Decimal.read initial_db
  ∧ stock_nonneg initial_db ∧ seq_covers initial_db ∧ refs_ok initial_db
  ∧ qty_pos initial_db ∧ totals_ok initial_db.
Proof.
  split; [exact reachable_initial_db|].
  exact (reachable_ledger_ok Decimal.read initial_db reachable_initial_db).
Defined.

(** The seeded file has four sales and four rows in each listing. *)
Lemma reachable_lists_every_sale_witness :
  size (sale initial_db) = 4%nat
  ∧ length (Sql.select_sales initial_db) = size (sale initial_db)
  ∧ length (Sql.select_report initial_db) = size (sale initial_db)
  ∧ ∀ sid, is_Some (sale initial_db !! sid)
           ↔ sid ∈ (l_sid <$> Sql.select_sales initial_db).
Proof.
  split; [vm_compute; reflexivity|].
  exact (reachable_lists_every_sale Decimal.read initial_db
           reachable_initial_db).
Defined.

(** The third block of the report of the seeded file. *)
Lemma reachable_report_totals_witness :
  let x := LineItem 3 "2024-01-17" "Alice" "Machine Learning Guide"
                    1200 3 200 3400 in
  x ∈ Sql.select_report initial_db
  ∧ 0 < r_sqty x
  ∧ r_stotal x = r_bprice x * r_sqty x - r_sdiscount x.
Proof.
  intros x.
  assert (x ∈ Sql.select_report initial_db) as Hx.
  { apply (list_elem_of_lookup_2 _ 2). vm_compute. reflexivity. }
  split; [exact Hx|].
  exact (reachable_report_totals Decimal.read initial_db x
           reachable_initial_db Hx).
Defined.

(** From the seeded file to the file after the sample sale. *)
Lemma steps_keep_members_and_books_witness :
  rtc (step Decimal.read) initial_db after_sale
  ∧ (∀ k m, member initial_db !! k = Some m → member after_sale !! k = Some m)
  ∧ (∀ k b, book initial_db !! k = Some b →
       ∃ b', book after_sale !! k = Some b'
             ∧ btitle b' = btitle b ∧ bprice b' = bprice b
             ∧ bstock b' ≤ bstock b)
  ∧ sale_seq initial_db ≤ sale_seq after_sale.
Proof.
  assert (rtc (step Decimal.read) initial_db after_sale) as Hsteps.
  { apply rtc_once.
    apply (step_add_sale Decimal.read initial_db
             (World initial_db sale_lines []) (Ok tt)
             (World after_sale [] [SaleAdded 1100]));
      [reflexivity|vm_compute; reflexivity]. }
  split; [exact Hsteps|].
  exact (steps_keep_members_and_books Decimal.read _ _ Hsteps).
Defined.



(** A blank line, a word and a 7, then the end of the input or a 5. *)
Lemma idle_lines_change_nothing_witness :
  Forall idle [""; " menu "; "7"]%string
  ∧ (∃ shown,
       main Decimal.read empty_db [""; " menu "; "7"]%string
       = Some (Uncaught EOFError, Session initial_db [] shown))
  ∧ ∃ shown,
      main Decimal.read empty_db [""; " menu "; "7"; " 5 "; "1"]%string
      = Some (SystemExit, Session initial_db ["1"%string] (Leaving :: shown)).
Proof.
  assert (Forall idle [""; " menu "; "7"]%string) as Hpre.
  { repeat (constructor; [apply (bool_decide_unpack _); by vm_compute|]).
    constructor. }
  destruct (idle_lines_change_nothing Decimal.read empty_db _ Hpre)
    as [Heof Hexit].
  split_and!; [exact Hpre|exact Heof|].
  exact (Hexit " 5 "%string ["1"%string] eq_refl).
Defined.

(** The file whose fifth listed sale names the book B999, again. *)
Lemma exceptions_of_calls_witness :
  let w := World lost_book_db ["5"; "10"]%string [] in
  let w' := World lost_book_db []
              (sale_listing (Sql.select_sales lost_book_db)) in
  update_sale Decimal.read w = (Raise TypeError, w')
  ∧ (TypeError = EOFError ∨ TypeError = OverflowError
     ∨ (TypeError = TypeError ∧ ¬ refs_ok (db w))).
Proof.
  intros w w'.
  assert (update_sale Decimal.read w = (Raise TypeError, w')) as Hrun
    by (vm_compute; reflexivity).
  split; [exact Hrun|].
  destruct (exceptions_of_calls Decimal.read w TypeError w')
    as (_ & Hupdate & _).
  exact (Hupdate Hrun).
Defined.

(** The sample sale is the fifth and last row of both listings. *)
Lemma add_sale_listed_last_witness :
  let w := World initial_db sale_lines [] in
  let w' := World after_sale [] [SaleAdded 1100] in
  add_sale Decimal.read w = (Ok tt, w')
  ∧ ∃ x y,
      last (Sql.select_sales (db w')) = Some x
      ∧ l_sid x = sale_seq (db w')
      ∧ last (Sql.select_report (db w')) = Some y
      ∧ r_sid y = sale_seq (db w')
      ∧ r_stotal y = 1100
      ∧ sale_seq (db w) < sale_seq (db w').
Proof.
  intros w w'.
  assert (add_sale Decimal.read w = (Ok tt, w')) as Hrun
    by (vm_compute; reflexivity).
  split; [exact Hrun|].
  exact (add_sale_listed_last Decimal.read w w' 1100 Hrun eq_refl).
Defined.

(** Sale 3 has the discount 200; it is given again. *)
Lemma update_with_same_discount_witness :
  update_sale Decimal.read (World initial_db update_lines [])
  = (Ok tt,
     World initial_db []
       (SaleUpdated 3 3400 :: sale_listing (Sql.select_sales initial_db) ++ [])).
Proof.
  apply (update_with_same_discount Decimal.read initial_db "3" 3
           (Listing 3 "Alice" "2024-01-17") "200"
           (SaleRow "2024-01-17" "M001" "B003" 3 200 3400) [] []
           reachable_initial_db);
    [discriminate|reflexivity|lia|vm_compute; reflexivity..].
Defined.

End Tours.
